(** * hello-zero-jotai: the Zero-to-Jotai adapter

    A shallow embedding of [zero-jotai.ts] (the change-listener view, the
    view cache and the memoized query atom) and of [use-zero-jotai.ts] (the
    React hook), with the properties of the adapter proved over it.

    Conventions.
    - A private member [#name] of the TypeScript class is written [name_].
    - Mutable objects are threaded explicitly: a method takes the receiver
      [this] as its last argument and returns the updated receiver.
    - Callbacks are not run; every invocation is recorded as a [Call] in the
      order in which the code performs it. A callback supplied by a caller
      is taken to return, and the methods of the class and the two
      functions of the view cache are given for callbacks that return. The
      [onData] closure that [zeroQueryAtom] installs writes to the store,
      which throws; [zeroQueryAtom], the hook and the requests served by
      the module follow that throw.
    - [Date.now()], read by the debounce helper, is an explicit argument
      [now] (milliseconds). *)

From Stdlib Require Import Ascii.
From stdpp Require Import gmap strings list pretty.

Local Open Scope string_scope.
Local Open Scope list_scope.


(* ===================================================================== *)
(** ** JavaScript strings *)
(* ===================================================================== *)

Module JsString.

(** [s.startsWith(p)] *)
Fixpoint startsWith (p s : string) : bool :=
  match p, s with
  | EmptyString, _ => true
  | String a p', String b s' => Ascii.eqb a b && startsWith p' s'
  | String _ _, EmptyString => false
  end.

(** [s.includes(needle)]: case-sensitive substring search. *)
Fixpoint includes (needle s : string) : bool :=
  startsWith needle s ||
  match s with
  | EmptyString => false
  | String _ s' => includes needle s'
  end.

(** [s.split(sep)] for a one-character separator. The result is never
    empty: a string without separator is returned whole. *)
Fixpoint split (sep : Ascii.ascii) (s : string) : list string :=
  match s with
  | EmptyString => [EmptyString]
  | String c r =>
      if Ascii.eqb c sep then EmptyString :: split sep r
      else match split sep r with
           | h :: t => String c h :: t
           | [] => [String c EmptyString]
           end
  end.

(** The character does not occur in the string. *)
Fixpoint free_of (sep : Ascii.ascii) (s : string) : bool :=
  match s with
  | EmptyString => true
  | String c r => negb (Ascii.eqb c sep) && free_of sep r
  end.

End JsString.

(* ===================================================================== *)
(** ** The ES [Map] with string keys

    Iteration follows insertion order, [set] on a present key keeps the
    key's position and replaces its value. *)
(* ===================================================================== *)

Module JsMap.

Definition t (V : Type) : Type := list (string * V).

Definition empty {V} : t V := [].


Fixpoint set {V} (k : string) (v : V) (m : t V) : t V :=
  match m with
  | [] => [(k, v)]
  | (k', v') :: r =>
      if String.eqb k k' then (k, v) :: r else (k', v') :: set k v r
  end.

Fixpoint delete {V} (k : string) (m : t V) : t V :=
  match m with
  | [] => []
  | (k', v') :: r =>
      if String.eqb k k' then delete k r else (k', v') :: delete k r
  end.

Definition clear {V} (m : t V) : t V := [].
Definition size {V} (m : t V) : nat := length m.
Definition keys {V} (m : t V) : list string := map fst m.
Definition values {V} (m : t V) : list V := map snd m.
Definition entries {V} (m : t V) : list (string * V) := m.

Definition has_key {V} (k : string) (m : t V) : bool :=
  existsb (String.eqb k) (keys m).

(** Keys are unique, as in every [Map]. *)
Fixpoint wf {V} (m : t V) : bool :=
  match m with
  | [] => true
  | (k, _) :: r => negb (has_key k r) && wf r
  end.

End JsMap.

(* ===================================================================== *)
(** ** lodash [debounce(f, wait, {leading: false, trailing: true})]

    The state of one debounced function. A call records the time and the
    pending arguments and arms the timer; the wrapped function only runs
    from the timer callback, once [wait] ms have passed since the last
    call. The wrapped function itself is run by the caller of
    [timerExpired] when the second component of its result is [true]. *)
(* ===================================================================== *)

Module Debounce.

Record t : Type := mk {
  lastCallTime : option Z;   (* undefined before the first call *)
  lastArgs : bool;           (* a call is pending *)
  timerId : bool;            (* a timer is armed *)
}.

Definition init : t := mk None false false.

Definition shouldInvoke (wait : Z) (d : t) (time : Z) : bool :=
  match lastCallTime d with
  | None => true
  | Some lc => ((wait <=? time - lc) || (time - lc <? 0))%Z
  end.

(** [debounced()] at time [time]: nothing is invoked on the leading
    edge; the timer is armed if it was not. *)
Definition debounced (time : Z) (d : t) : t := mk (Some time) true true.

(** The timer callback at time [time]. Without an armed timer there is no
    callback to run. *)
Definition timerExpired (wait : Z) (time : Z) (d : t) : t * bool :=
  if timerId d then
    if shouldInvoke wait d time
    then (mk (lastCallTime d) false false, lastArgs d)   (* trailingEdge *)
    else (d, false)                                      (* re-armed *)
  else (d, false).

End Debounce.

(* ===================================================================== *)
(** ** Data of the wrapped sync library *)
(* ===================================================================== *)

(** The integers a JavaScript number holds exactly and [String] prints by
    their decimal digits: those of magnitude below 2^53. *)
Definition safe_integer (n : Z) : bool := (Z.abs n <? 9007199254740992)%Z.

(** Column values of a row. [VNum n _] is a number whose value is the safe
    integer [n]. Every other value that is not [null], a boolean or a
    string (a fraction, [NaN], a number of larger magnitude, an object, an
    array) is [VOther], given by the text that [String] makes of it and by
    its truthiness. *)
Inductive Value : Type :=
| VNull
| VBool (b : bool)
| VNum (n : Z) (safe : Is_true (safe_integer n))
| VStr (s : string)
| VOther (text : string) (truthy : bool).

(** [Record<string, unknown>]: the properties of a row in insertion order. *)
Definition Row : Type := list (string * Value).

(** [row.name], [None] for [undefined]. *)
Fixpoint prop (name : string) (row : Row) : option Value :=
  match row with
  | [] => None
  | (k, v) :: r => if String.eqb name k then Some v else prop name r
  end.

(** JavaScript truthiness of a property read. *)
Definition truthy (v : option Value) : bool :=
  match v with
  | None | Some VNull => false
  | Some (VBool b) => b
  | Some (VNum n _) => negb (n =? 0)%Z
  | Some (VStr s) => negb (String.eqb s "")
  | Some (VOther _ b) => b
  end.

(** [a || b] *)
Definition js_or (a b : option Value) : option Value :=
  if truthy a then a else b.

(** [String(v)] *)
Definition String_ (v : Value) : string :=
  match v with
  | VNull => "null"
  | VBool true => "true"
  | VBool false => "false"
  | VNum n _ => pretty n
  | VStr s => s
  | VOther text _ => text
  end.

#[warnings="-register-all"]
Inductive Format : Type :=
| mkFormat (singular : bool) (relationships : list (string * Format)).

Definition singular (f : Format) : bool :=
  match f with mkFormat s _ => s end.

(** [Change]: the four kinds of change the view receives. *)
Inductive Change (N C : Type) : Type :=
| Add (node : N)
| Remove (node : N)
| Child (node : N) (child : C)
| Edit (node : N) (oldNode : N).
Arguments Add {N C}.
Arguments Remove {N C}.
Arguments Child {N C}.
Arguments Edit {N C}.

(** The value stored under [""] in the root entry: [undefined], an array of
    entries, or one entry. *)
Inductive ViewData (E : Type) : Type :=
| Undefined
| Plural (es : list E)
| Singular (e : E).
Arguments Undefined {E}.
Arguments Plural {E}.
Arguments Singular {E}.

(** What the adapter imports and does not define: the node and entry types
    of the sync library, its [applyChange], [JSON.stringify], and the
    [clientID] of the client [z]. *)
Class Zero : Type := {
  Node : Type;
  row : Node -> Row;
  ChildChange : Type;
  Entry : Type;
  applyChange : ViewData Entry -> Change Node ChildChange -> Format -> ViewData Entry;
  JSON_stringify : Row -> string;
  clientID : string;
}.

Inductive Status : Type := unknown | complete.

(** [type ChangeOperation = "add" | "remove" | "edit"] *)
Inductive ChangeOperation : Type := add | remove | edit.

#[global] Instance ChangeOperation_eq_dec : EqDecision ChangeOperation.
Proof. solve_decision. Defined.

Definition operation_name (op : ChangeOperation) : string :=
  match op with add => "add" | remove => "remove" | edit => "edit" end.

Inductive FunctionKey : Type := onAddKey | onRemoveKey | onUpdateKey.

(** A value thrown by JavaScript code: an [Error] instance with its
    message, or anything else. *)
Inductive Thrown : Type :=
| ErrorInstance (message : string)
| NotAnError (payload : Value).

Inductive Outcome : Type :=
| Returned
| Threw (e : Thrown).

(* ===================================================================== *)
(** ** Subscriptions and recorded callback invocations *)
(* ===================================================================== *)

(** An [onData] callback: one supplied by a caller, or the closure that
    [zeroQueryAtom] installs, which writes the result to [stateAtom] unless
    [syncOnData] is false. *)
Inductive DataHandler : Type :=
| UserOnData (fn : nat)
| SyncStateAtom (stateAtom : nat) (syncOnData : bool).

(** [ChangeFactorySubscriptions<V>]; a callback is identified by a number,
    [None] is an absent callback. *)
Record ChangeFactorySubscriptions : Type := mkSubscriptions {
  key : string;
  onData : option DataHandler;
  onAdd : option nat;
  onRemove : option nat;
  onUpdate : option nat;
}.

(** [callbacks[functionKey]] *)
Definition callback (functionKey : FunctionKey)
    (callbacks : ChangeFactorySubscriptions) : option nat :=
  match functionKey with
  | onAddKey => onAdd callbacks
  | onRemoveKey => onRemove callbacks
  | onUpdateKey => onUpdate callbacks
  end.

Section ChangeListenerFactory.
Context `{Zero}.

Abbreviation Change_ := (Change Node ChildChange).
Abbreviation ViewData_ := (ViewData Entry).

(** One callback invocation. A row callback also records the entry of
    the consolidation queue that is being delivered. *)
Inductive Call : Type :=
| CallData (subscription : string) (fn : DataHandler)
           (result : ViewData_ * Status)
| CallRow (subscription : string) (functionKey : FunctionKey) (fn : nat)
          (debounceKey : string) (result : Row).

Definition is_row_call (c : Call) : bool :=
  match c with CallRow _ _ _ _ _ => true | CallData _ _ _ => false end.

(** The [Input] handed to the view: what [input.fetch({})] yields. *)
Record Input : Type := mkInput { fetch : list Node }.

(** An instance of [class ChangeListenerFactory<V>]. [onDestroy_] is the
    behaviour of the teardown closure received from the library: [None]
    when it returns, [Some e] when it throws [e]. [queryCompletePending]
    holds while a [then] callback on the [queryComplete] promise is
    registered and has not run. *)
Record View : Type := mkView {
  format_ : Format;
  onDestroy_ : option Thrown;
  state_ : ViewData_ * Status;
  queryCompletePending : bool;
  consolidatedCallbacks_ : JsMap.t Row;
  handleConsolidatedDebounced_ : Debounce.t;
  subscriptions_ : JsMap.t ChangeFactorySubscriptions;
}.

Definition set_state (s : ViewData_ * Status) (this : View) : View :=
  mkView (format_ this) (onDestroy_ this) s (queryCompletePending this)
    (consolidatedCallbacks_ this) (handleConsolidatedDebounced_ this)
    (subscriptions_ this).

Definition set_queryCompletePending (b : bool) (this : View) : View :=
  mkView (format_ this) (onDestroy_ this) (state_ this) b
    (consolidatedCallbacks_ this) (handleConsolidatedDebounced_ this)
    (subscriptions_ this).

Definition set_consolidatedCallbacks (m : JsMap.t Row) (this : View) : View :=
  mkView (format_ this) (onDestroy_ this) (state_ this)
    (queryCompletePending this) m (handleConsolidatedDebounced_ this)
    (subscriptions_ this).

Definition set_handleConsolidatedDebounced (d : Debounce.t) (this : View)
    : View :=
  mkView (format_ this) (onDestroy_ this) (state_ this)
    (queryCompletePending this) (consolidatedCallbacks_ this) d
    (subscriptions_ this).

Definition set_subscriptions (m : JsMap.t ChangeFactorySubscriptions)
    (this : View) : View :=
  mkView (format_ this) (onDestroy_ this) (state_ this)
    (queryCompletePending this) (consolidatedCallbacks_ this)
    (handleConsolidatedDebounced_ this) m.

(** [get data()] and [get status()] *)
Definition data (this : View) : ViewData_ := fst (state_ this).
Definition status (this : View) : Status := snd (state_ this).

(** [#onData()] *)
Definition onData_ (this : View) : list Call :=
  flat_map
    (fun callbacks =>
       match onData callbacks with
       | Some fn => [CallData (key callbacks) fn (data this, status this)]
       | None => []
       end)
    (JsMap.values (subscriptions_ this)).

Definition hasSubscribers (this : View) : bool :=
  negb (JsMap.size (subscriptions_ this) =? 0)%nat.

Definition addSubscriptions (opts : ChangeFactorySubscriptions)
    (this : View) : View :=
  set_subscriptions (JsMap.set (key opts) opts (subscriptions_ this)) this.

Definition removeSubscriptions (k : string) (this : View) : View :=
  set_subscriptions (JsMap.delete k (subscriptions_ this)) this.

(** [destroy()]: both maps are cleared, then the teardown closure runs;
    what it throws is inspected by the [catch] block. *)
Definition destroy (this : View) : View * Outcome :=
  let this1 :=
    set_subscriptions (JsMap.clear (subscriptions_ this))
      (set_consolidatedCallbacks
         (JsMap.clear (consolidatedCallbacks_ this)) this) in
  match onDestroy_ this with
  | None => (this1, Returned)
  | Some e =>
      match e with
      | ErrorInstance message =>
          if JsString.includes "Connection not found" message
          then (this1, Returned)
          else (this1, Threw e)
      | NotAnError _ => (this1, Threw e)
      end
  end.

(** [#applyChange(change)] *)
Definition applyChange_ (change : Change_) (this : View) : View * list Call :=
  let this1 :=
    set_state (applyChange (data this) change (format_ this), status this)
      this in
  (this1, onData_ this1).

Definition change_node (change : Change_) : Node :=
  match change with
  | Add node | Remove node | Child node _ | Edit node _ => node
  end.

(** [change.type], [None] standing for ["child"]. *)
Definition change_type (change : Change_) : option ChangeOperation :=
  match change with
  | Add _ => Some add
  | Remove _ => Some remove
  | Child _ _ => None
  | Edit _ _ => Some edit
  end.

(** [#getNodeId(node)] *)
Definition getNodeId_ (node : Node) : string :=
  let id := js_or (prop "id" (row node)) (prop "ID" (row node)) in
  if truthy id
  then match id with Some v => String_ v | None => JSON_stringify (row node) end
  else JSON_stringify (row node).

(** [#createDebounceKey(type, nodeId)] *)
Definition createDebounceKey_ (type : ChangeOperation) (nodeId : string)
    : string :=
  operation_name type +:+ "-" +:+ nodeId.

(** [#decriptDebounceKey(debounceKey)]: the first element of the split,
    as a string. *)
Definition decriptDebounceKey_ (debounceKey : string) : option string :=
  head (JsString.split "-"%char debounceKey).

(** [#typeToFunctionKey(type)]; the [switch] has no default, so any other
    string gives [undefined]. *)
Definition typeToFunctionKey_ (type : option string) : option FunctionKey :=
  match type with
  | Some "add" => Some onAddKey
  | Some "remove" => Some onRemoveKey
  | Some "edit" => Some onUpdateKey
  | _ => None
  end.

(** The inner loop of [#handleConsolidated] for one queue entry. *)
Definition deliver (subs : JsMap.t ChangeFactorySubscriptions)
    (entry : string * Row) : list Call :=
  let '(debounceKey, data) := entry in
  let type := decriptDebounceKey_ debounceKey in
  match typeToFunctionKey_ type with
  | None => []
  | Some functionKey =>
      flat_map
        (fun callbacks =>
           match callback functionKey callbacks with
           | Some fn =>
               [CallRow (key callbacks) functionKey fn debounceKey data]
           | None => []
           end)
        (JsMap.values subs)
  end.

(** [#handleConsolidated()] *)
Definition handleConsolidated_ (this : View) : View * list Call :=
  (set_consolidatedCallbacks (JsMap.clear (consolidatedCallbacks_ this)) this,
   flat_map (deliver (subscriptions_ this))
     (JsMap.entries (consolidatedCallbacks_ this))).

(** [#consolidateChanges(changeType, nodeId, data)] at time [now] *)
Definition consolidateChanges_ (now : Z) (changeType : ChangeOperation)
    (nodeId : string) (data : Row) (this : View) : View :=
  let debounceKey := createDebounceKey_ changeType nodeId in
  let this1 :=
    set_consolidatedCallbacks
      (JsMap.set debounceKey data (consolidatedCallbacks_ this)) this in
  set_handleConsolidatedDebounced
    (Debounce.debounced now (handleConsolidatedDebounced_ this1)) this1.

(** [push(change)] at time [now] *)
Definition push (now : Z) (change : Change_) (this : View)
    : View * list Call :=
  let '(this1, calls) := applyChange_ change this in
  let nodeId := getNodeId_ (change_node change) in
  match change_type change with
  | None => (this1, calls)
  | Some type =>
      (consolidateChanges_ now type nodeId (row (change_node change)) this1,
       calls)
  end.

(** The debounce timer of the view fires at time [now]. *)
Definition timerFired (now : Z) (this : View) : View * list Call :=
  let '(d, invoke) :=
    Debounce.timerExpired 100 now (handleConsolidatedDebounced_ this) in
  let this1 := set_handleConsolidatedDebounced d this in
  if invoke then handleConsolidated_ this1 else (this1, []).

(** The [then] callback on the [queryComplete] promise runs. *)
Definition queryCompleteResolved (this : View) : View :=
  if queryCompletePending this
  then set_queryCompletePending false (set_state (data this, complete) this)
  else this.

(** The fetch loop of the constructor. *)
Fixpoint applyFetched (nodes : list Node) (this : View) : View * list Call :=
  match nodes with
  | [] => (this, [])
  | node :: rest =>
      let '(this1, calls1) := applyChange_ (Add node) this in
      let '(this2, calls2) := applyFetched rest this1 in
      (this2, calls1 ++ calls2)
  end.

(** The default of the [format] parameter:
    [{ singular: false, relationships: {} }]. *)
Definition default_format : Format := mkFormat false [].

(** [new ChangeListenerFactory(input, onTransactionCommit, format,
    onDestroy, queryComplete, subscriptions)]. [format] is [None] when the
    argument is [undefined]; an absent [onDestroy] defaults to a closure
    that returns, which is [None] as well. [queryComplete] is [true] for
    the literal [true] and [false] for a promise. [onTransactionCommit] is
    not used by the class. *)
Definition new (input : Input) (format : option Format)
    (onDestroy : option Thrown) (queryComplete : bool)
    (subscriptions : ChangeFactorySubscriptions) : View * list Call :=
  let format := default default_format format in
  let this0 :=
    mkView format onDestroy
      (if singular format then Undefined else Plural [],
       if queryComplete then complete else unknown)
      false JsMap.empty Debounce.init
      (JsMap.set (key subscriptions) subscriptions JsMap.empty) in
  let '(this1, calls) := applyFetched (fetch input) this0 in
  (set_queryCompletePending (negb queryComplete) this1, calls).

End ChangeListenerFactory.

(* ===================================================================== *)
(** ** The view cache, the memoized atom and the hook *)
(* ===================================================================== *)

Section Adapter.
Context `{Zero}.

Abbreviation ViewData_ := (ViewData Entry).

(** A query of the sync library, as far as the adapter observes it: its
    hash and the arguments that [query.materialize(factory)] passes to the
    factory. *)
Record Query : Type := mkQuery {
  hash : string;
  query_input : Input;
  query_format : Format;
  query_onDestroy : option Thrown;
  query_queryComplete : bool;
}.

(** [getClientQueryKey(query)] *)
Definition getClientQueryKey (query : Query) : string :=
  hash query +:+ "-" +:+ clientID.

(** [zeroChangeListenerFactory(opts)], applied to the arguments of the
    factory. *)
Definition zeroChangeListenerFactory (opts : ChangeFactorySubscriptions)
    (_query : Query) (input : Input) (format : Format)
    (onDestroy : option Thrown) (queryComplete : bool) : View * list Call :=
  new input (Some format) onDestroy queryComplete opts.

(** [query.materialize(factory)] *)
Definition materialize (query : Query)
    (factory : Query -> Input -> Format -> option Thrown -> bool ->
               View * list Call) : View * list Call :=
  factory query (query_input query) (query_format query)
    (query_onDestroy query) (query_queryComplete query).

(** The object returned by [zeroQueryAtom]. [cleanup_subscriptionKey] is
    the [subscriptions.key] captured by the [cleanup] closure and
    [materializedFactoryView] the view captured by the getter of
    [stateAtom]. *)
Record QueryAtom : Type := mkQueryAtom {
  stateAtom : nat;
  queryKey : string;
  cleanup_subscriptionKey : string;
  materializedFactoryView : nat;
}.

(** What the environment observes, in order. *)
Inductive Effect : Type :=
| Called (c : Call)
| Materialized (queryKey : string) (view : nat)
| TornDown (view : nat).

(** The module state: the view objects by reference, the
    [viewsMaterialized] map, the cache of the memoized [zeroQueryAtom], the
    number of atoms created, and the effects performed so far. *)
Record World : Type := mkWorld {
  heap : list View;
  viewsMaterialized : gmap string nat;
  zeroQueryAtom_cache : gmap string QueryAtom;
  atoms : nat;
  trace : list Effect;
}.

Definition initial : World := mkWorld [] ∅ ∅ 0 [].

Definition set_heap (h : list View) (w : World) : World :=
  mkWorld h (viewsMaterialized w) (zeroQueryAtom_cache w) (atoms w) (trace w).

Definition set_viewsMaterialized (m : gmap string nat) (w : World) : World :=
  mkWorld (heap w) m (zeroQueryAtom_cache w) (atoms w) (trace w).

Definition set_zeroQueryAtom_cache (m : gmap string QueryAtom) (w : World)
    : World :=
  mkWorld (heap w) (viewsMaterialized w) m (atoms w) (trace w).

Definition set_atoms (n : nat) (w : World) : World :=
  mkWorld (heap w) (viewsMaterialized w) (zeroQueryAtom_cache w) n (trace w).

Definition emit (es : list Effect) (w : World) : World :=
  mkWorld (heap w) (viewsMaterialized w) (zeroQueryAtom_cache w) (atoms w)
    (trace w ++ es).

(** [getMaterializedFactoryView({query, subscriptions})] *)
Definition getMaterializedFactoryView (query : Query)
    (subscriptions : ChangeFactorySubscriptions) (w : World) : World * nat :=
  let key := getClientQueryKey query in
  match viewsMaterialized w !! key with
  | Some view =>
      (set_heap (alter (addSubscriptions subscriptions) view (heap w)) w, view)
  | None =>
      let '(object, calls) :=
        materialize query (zeroChangeListenerFactory subscriptions) in
      let view := length (heap w) in
      (emit (Materialized key view :: map Called calls)
         (set_viewsMaterialized (<[key := view]> (viewsMaterialized w))
            (set_heap (heap w ++ [object]) w)),
       view)
  end.

(** [cleanupMaterializedFactoryView({queryKey, subscriptionKey})]. When
    [destroy] throws, the statement after it is not reached. *)
Definition cleanupMaterializedFactoryView (queryKey subscriptionKey : string)
    (w : World) : World * Outcome :=
  match viewsMaterialized w !! queryKey with
  | None => (w, Returned)
  | Some view =>
      match heap w !! view with
      | None => (w, Returned)
      | Some object =>
          let object1 := removeSubscriptions subscriptionKey object in
          if hasSubscribers object1
          then (set_heap (<[view := object1]> (heap w)) w, Returned)
          else
            let '(object2, outcome) := destroy object1 in
            let w1 := emit [TornDown view]
                        (set_heap (<[view := object2]> (heap w)) w) in
            match outcome with
            | Returned =>
                (set_viewsMaterialized (delete queryKey (viewsMaterialized w1))
                   w1, Returned)
            | Threw e => (w1, Threw e)
            end
      end
  end.

(** The store and the write of [stateAtom]. The atom is built by
    [atom(read, write)], so it has no initial value, and its [write] is
    [(_, set, value) => set(stateAtom, value)]. The setter that jotai hands
    to a [write] throws [new Error("atom not writable")] when it is given
    the atom being written and that atom has no initial value. So
    [store.set(stateAtom, value)] throws this error. *)
Definition atom_not_writable : Thrown := ErrorInstance "atom not writable".

(** One call of an [onData] function. The closure installed by
    [zeroQueryAtom] returns at once when [syncOnData] is false and calls
    [store.set(stateAtom, ...)] otherwise. *)
Definition onData_outcome (fn : DataHandler) : Outcome :=
  match fn with
  | SyncStateAtom _ true => Threw atom_not_writable
  | SyncStateAtom _ false => Returned
  | UserOnData _ => Returned
  end.

Definition call_outcome (c : Call) : Outcome :=
  match c with
  | CallData _ fn _ => onData_outcome fn
  | CallRow _ _ _ _ _ => Returned
  end.

(** Of the calls that code makes in this order when every callback
    returns, the calls that are made: those up to and including the first
    one that throws. *)
Fixpoint until_throw (calls : list Call) : list Call * Outcome :=
  match calls with
  | [] => ([], Returned)
  | c :: rest =>
      match call_outcome c with
      | Threw e => ([c], Threw e)
      | Returned =>
          let '(done, outcome) := until_throw rest in (c :: done, outcome)
      end
  end.

(** The callbacks that [getMaterializedFactoryView({query, subscriptions})]
    calls. A cached view only has the subscriptions added. On a miss the
    constructor runs inside [query.materialize] and calls [onData] in its
    fetch loop. *)
Definition materialize_calls (query : Query)
    (subscriptions : ChangeFactorySubscriptions) (w : World)
    : list Call * Outcome :=
  match viewsMaterialized w !! getClientQueryKey query with
  | Some _ => ([], Returned)
  | None =>
      until_throw
        (snd (materialize query (zeroChangeListenerFactory subscriptions)))
  end.

(** [getMaterializedFactoryView({query, subscriptions})] with the throw of
    a callback followed. What an [onData] call of the fetch loop throws
    leaves the constructor, [materialize] and this function, so that
    [viewsMaterialized.set] is not reached and the module keeps no
    reference to the object. *)
Definition getMaterializedFactoryView_throwing (query : Query)
    (subscriptions : ChangeFactorySubscriptions) (w : World)
    : World * (Thrown + nat) :=
  match materialize_calls query subscriptions w with
  | (done, Threw e) => (emit (map Called done) w, inl e)
  | (_, Returned) =>
      let '(w1, view) := getMaterializedFactoryView query subscriptions w in
      (w1, inr view)
  end.

(** [push(change)] at time [now] with the throw of a callback followed.
    [#applyChange] has updated the state when [#onData] runs; what an
    [onData] call throws leaves [#onData], [#applyChange] and [push], so
    that the change is not queued. *)
Definition push_throwing (now : Z) (change : Change Node ChildChange)
    (this : View) : View * list Call * Outcome :=
  let '(this1, calls) := applyChange_ change this in
  match until_throw calls with
  | (done, Threw e) => (this1, done, Threw e)
  | (_, Returned) => (push now change this, Returned)
  end.

(** The getter of [stateAtom], given the view it captured ([None] while
    the variable holds no view). *)
Definition stateAtom_read (materializedFactoryView : option View)
    : ViewData_ * Status :=
  match materializedFactoryView with
  | None => (Plural [], unknown)
  | Some view =>
      (match data view with Undefined => Plural [] | d => d end, status view)
  end.

(** [zeroQueryAtom({query, subscriptions, store, syncOnData})]: lodash
    [memoize] with the resolver [({query}) => getClientQueryKey(query)]; the
    body runs only when the cache has no entry for the resolved key, and
    [memoize] stores its result when it returns. When the body throws, the
    atom has been created and nothing is stored. *)
Definition zeroQueryAtom (query : Query)
    (subscriptions : ChangeFactorySubscriptions) (syncOnData : bool)
    (w : World) : World * (Thrown + QueryAtom) :=
  let resolved := getClientQueryKey query in
  match zeroQueryAtom_cache w !! resolved with
  | Some result => (w, inr result)
  | None =>
      let stateAtom := atoms w in
      match
        getMaterializedFactoryView_throwing query
          (mkSubscriptions (key subscriptions)
             (Some (SyncStateAtom stateAtom syncOnData))
             (onAdd subscriptions) (onRemove subscriptions)
             (onUpdate subscriptions))
          (set_atoms (S (atoms w)) w)
      with
      | (w1, inl e) => (w1, inl e)
      | (w1, inr view) =>
          let result :=
            mkQueryAtom stateAtom (getClientQueryKey query)
              (key subscriptions) view in
          (set_zeroQueryAtom_cache
             (<[resolved := result]> (zeroQueryAtom_cache w1)) w1,
           inr result)
      end
  end.

(** The [cleanup] closure of a [zeroQueryAtom] result. *)
Definition cleanup (result : QueryAtom) (queryKey : string) (w : World)
    : World * Outcome :=
  cleanupMaterializedFactoryView queryKey (cleanup_subscriptionKey result) w.

(** The state a mounted component keeps between renders: the ref
    [previousQueryKey] and the dependency list [[queryKey]] of the effect
    at the last render. *)
Record Component : Type := mkComponent {
  previousQueryKey : string;
  deps : string;
}.

(** The effect of [useZeroQueryAtom] with the [cleanup] and [queryKey] of
    the current render. *)
Definition effect (result : QueryAtom) (current : string) (w : World)
    : World * string * Outcome :=
  if negb (String.eqb current (queryKey result)) then
    let '(w1, outcome) := cleanup result current w in
    match outcome with
    | Returned => (w1, queryKey result, Returned)
    | Threw e => (w1, current, Threw e)
    end
  else (w, current, Returned).

(** One render of a component calling [useZeroQueryAtom(query,
    subscriptions)], followed by its effects. [mounted] is [None] on the
    first render. The hook passes no [syncOnData], which defaults to
    [true]. A render in which [zeroQueryAtom] throws commits nothing: the
    ref, the dependencies and the effects stay as they were. Otherwise the
    effect runs on the first render and whenever [queryKey] differs from
    the previous render's. *)
Definition useZeroQueryAtom (query : Query)
    (subscriptions : ChangeFactorySubscriptions) (mounted : option Component)
    (w : World) : World * option Component * Outcome :=
  match zeroQueryAtom query subscriptions true w with
  | (w1, inl e) => (w1, mounted, Threw e)
  | (w1, inr result) =>
      let current :=
        match mounted with
        | None => queryKey result
        | Some c => previousQueryKey c
        end in
      let changed :=
        match mounted with
        | None => true
        | Some c => negb (String.eqb (deps c) (queryKey result))
        end in
      if changed then
        let '(w2, current', outcome) := effect result current w1 in
        (w2, Some (mkComponent current' (queryKey result)), outcome)
      else (w1, Some (mkComponent current (queryKey result)), Returned)
  end.

(** Unmounting runs the cleanup functions returned by the component's
    effects. The effect of [useZeroQueryAtom] returns none. *)
Definition unmount (c : Component) (w : World) : World := w.

End Adapter.

(* ===================================================================== *)
(** ** Runs of one view and of the cache *)
(* ===================================================================== *)

Section Runs.
Context `{Zero}.

(** What can happen to a view, each with the time at which it happens. *)
Inductive Event : Type :=
| EvPush (change : Change Node ChildChange)
| EvTimer
| EvSubscribe (opts : ChangeFactorySubscriptions)
| EvUnsubscribe (k : string).

Definition step (e : Z * Event) (this : View) : View * list Call :=
  match e with
  | (now, EvPush change) => push now change this
  | (now, EvTimer) => timerFired now this
  | (_, EvSubscribe opts) => (addSubscriptions opts this, [])
  | (_, EvUnsubscribe k) => (removeSubscriptions k this, [])
  end.

Fixpoint run (es : list (Z * Event)) (this : View) : View * list Call :=
  match es with
  | [] => (this, [])
  | e :: rest =>
      let '(this1, calls1) := step e this in
      let '(this2, calls2) := run rest this1 in
      (this2, calls1 ++ calls2)
  end.












(** Every subscription is stored under its own [key], and keys are
    unique. *)
Definition subscriptions_wf (m : JsMap.t ChangeFactorySubscriptions) : bool :=
  JsMap.wf m && forallb (fun e => String.eqb (fst e) (key (snd e))) m.

(** The teardown closure returns, or throws what [destroy] swallows. *)
Definition teardown_swallowed (onDestroy : option Thrown) : bool :=
  match onDestroy with
  | None => true
  | Some (ErrorInstance message) =>
      JsString.includes "Connection not found" message
  | Some (NotAnError _) => false
  end.

(** Operations on the view cache, for subscriptions whose callbacks
    return. *)
Inductive Operation : Type :=
| Subscribe (query : Query) (subscriptions : ChangeFactorySubscriptions)
| Cleanup (queryKey subscriptionKey : string)
| Deliver (view : nat) (e : Z * Event).

(** [Deliver] only carries what the sync library and the timer do to a
    view. *)
Definition external (e : Z * Event) : bool :=
  match e with
  | (_, EvPush _) | (_, EvTimer) => true
  | _ => false
  end.

Definition perform (op : Operation) (w : World) : World :=
  match op with
  | Subscribe query subscriptions =>
      fst (getMaterializedFactoryView query subscriptions w)
  | Cleanup queryKey subscriptionKey =>
      fst (cleanupMaterializedFactoryView queryKey subscriptionKey w)
  | Deliver view e =>
      if external e then
        match heap w !! view with
        | Some object =>
            let '(object1, calls) := step e object in
            emit (map Called calls) (set_heap (<[view := object1]> (heap w)) w)
        | None => w
        end
      else w
  end.





Definition torn_down (view : nat) (w : World) : bool :=
  existsb (fun e => match e with TornDown v => (v =? view)%nat | _ => false end)
    (trace w).



(** The [onData] of the subscription, if any, returns. *)
Definition returns (callbacks : ChangeFactorySubscriptions) : bool :=
  match onData callbacks with
  | Some fn => match onData_outcome fn with Returned => true | _ => false end
  | None => true
  end.

(** Every cached view has a memoized [zeroQueryAtom] result under the same
    key. *)
Definition covered (w : World) : Prop :=
  forall k, is_Some (viewsMaterialized w !! k) ->
            is_Some (zeroQueryAtom_cache w !! k).

End Runs.

(* ===================================================================== *)
(** ** A small instance of the imported interface, for examples *)
(* ===================================================================== *)

Module Sample.

Definition same_id (a b : Row) : bool :=
  String.eqb (match prop "id" a with Some v => String_ v | None => "" end)
             (match prop "id" b with Some v => String_ v | None => "" end).

(** A flat view: rows are appended, removed and replaced by [id]. *)
Definition applyChange (d : ViewData Row) (change : Change Row unit)
    (format : Format) : ViewData Row :=
  match change, d with
  | Add node, Plural es => Plural (es ++ [node])
  | Add node, _ => if singular format then Singular node else Plural [node]
  | Remove node, Plural es =>
      Plural (List.filter (fun e => negb (same_id e node)) es)
  | Remove node, _ => Undefined
  | Edit node _, Plural es =>
      Plural (map (fun e => if same_id e node then node else e) es)
  | Edit node _, _ => Singular node
  | Child _ _, d => d
  end.

(** The JSON text of rows whose names and strings need no escaping. *)
Definition quote : string := String (Ascii.ascii_of_nat 34) "".

Definition json_value (v : Value) : string :=
  match v with
  | VStr s => quote +:+ s +:+ quote
  | _ => String_ v
  end.

Definition JSON_stringify (r : Row) : string :=
  "{" +:+ String.concat ","
            (map (fun p => quote +:+ fst p +:+ quote +:+ ":"
                           +:+ json_value (snd p)) r)
      +:+ "}".

Definition zero : Zero :=
  Build_Zero Row (fun n => n) unit Row applyChange JSON_stringify "c1".

Definition row1 : Row := [("id", VNum 1 I); ("title", VStr "draft")].
Definition row1' : Row := [("id", VNum 1 I); ("title", VStr "final")].
Definition row2 : Row := [("id", VNum 2 I); ("title", VStr "other")].

Definition plural : Format := mkFormat false [].

(** A subscriber with all four callbacks. *)
Definition listener (k : string) (fn : nat) : ChangeFactorySubscriptions :=
  mkSubscriptions k (Some (UserOnData fn)) (Some (fn + 1)) (Some (fn + 2))
    (Some (fn + 3)).

(** A query with one initial row whose teardown behaves as given. *)
Definition query (h : string) (onDestroy : option Thrown) : @Query zero :=
  @mkQuery zero h (@mkInput zero [row1]) plural onDestroy true.

(** A freshly constructed view over one row with the subscriber ["a"]. *)
Definition view_a (onDestroy : option Thrown) : @View zero :=
  fst (@new zero (@mkInput zero [row1]) (Some plural) onDestroy true
         (listener "a" 10)).





(** The queries of the hook examples: their result is empty when they are
    materialized. *)
Definition q1 : @Query zero :=
  @mkQuery zero "q1" (@mkInput zero []) plural None true.
Definition q2 : @Query zero :=
  @mkQuery zero "q2" (@mkInput zero []) plural None true.


End Sample.

(* ===================================================================== *)
(** ** The rest of the module and the client *)
(* ===================================================================== *)

Section Module_.
Context `{Zero}.

(** [zeroChangeListenerFactoryInternal(_query, input, format, onDestroy,
    onTransactionCommit, queryComplete)]: the subscription is the literal
    [{ key: "a" }]. *)
Definition zeroChangeListenerFactoryInternal (_query : Query) (input : Input)
    (format : Format) (onDestroy : option Thrown) (queryComplete : bool)
    : View * list Call :=
  new input (Some format) onDestroy queryComplete
    (mkSubscriptions "a" None None None None).

(** The subscription has no callback at all. *)
Definition silent (callbacks : ChangeFactorySubscriptions) : bool :=
  match onData callbacks, onAdd callbacks, onRemove callbacks,
        onUpdate callbacks with
  | None, None, None, None => true
  | _, _, _, _ => false
  end.

(** No subscription of the map has a callback. *)
Definition all_silent (m : JsMap.t ChangeFactorySubscriptions) : bool :=
  forallb (fun e => silent (snd e)) m.

(** What users of the module and its environment do to it: invoke the
    exported [zeroQueryAtom], call a [cleanup] closure (which may be given
    any query key), and let the sync library or the timer act on a view.
    What a request throws goes to its caller; the module state is what the
    request left. *)
Inductive Request : Type :=
| Invoke (query : Query) (subscriptions : ChangeFactorySubscriptions)
         (syncOnData : bool)
| Release (result : QueryAtom) (queryKey : string)
| Happen (view : nat) (e : Z * Event).

Definition serve (r : Request) (w : World) : World :=
  match r with
  | Invoke query subscriptions syncOnData =>
      fst (zeroQueryAtom query subscriptions syncOnData w)
  | Release result queryKey => fst (cleanup result queryKey w)
  | Happen view (now, EvPush change) =>
      match heap w !! view with
      | Some object =>
          let '(object1, calls, _) := push_throwing now change object in
          emit (map Called calls) (set_heap (<[view := object1]> (heap w)) w)
      | None => w
      end
  | Happen view e => perform (Deliver view e) w
  end.

Definition serve_all (rs : list Request) (w : World) : World :=
  fold_left (fun w r => serve r w) rs w.

(** The effect is an invocation of an [onData] callback supplied by a
    caller. *)
Definition calls_user_onData (e : Effect) : bool :=
  match e with
  | Called (CallData _ (UserOnData _) _) => true
  | _ => false
  end.

(** The [onData] of the subscription, if any, is not one supplied by a
    caller. *)
Definition onData_is_internal (callbacks : ChangeFactorySubscriptions) : bool :=
  match onData callbacks with
  | Some (UserOnData _) => false
  | _ => true
  end.

(** Every subscription of every view object has an internal [onData]. *)
Definition internal_onData_only (w : World) : Prop :=
  Forall
    (fun object =>
       Forall (fun e => onData_is_internal (snd e) = true)
         (subscriptions_ object))
    (heap w).

(** No caller-supplied [onData] has been invoked. *)
Definition no_user_onData_called (es : list Effect) : bool :=
  forallb (fun e => negb (calls_user_onData e)) es.

(** Every cached view exists and has at most one subscription. *)
Definition at_most_one_subscriber (w : World) : Prop :=
  forall k view,
    viewsMaterialized w !! k = Some view ->
    exists object,
      heap w !! view = Some object /\ JsMap.size (subscriptions_ object) <= 1.

(** The [onData] invocation reports the status [st]. *)
Definition reports (st : Status) (c : Call) : bool :=
  match c with
  | CallData _ _ (_, complete) => match st with complete => true | _ => false end
  | CallData _ _ (_, unknown) => match st with unknown => true | _ => false end
  | CallRow _ _ _ _ _ => true
  end.

End Module_.

(** The module that creates the client [z] ([zero.ts]). *)
Section Client.

(** The payload of a decoded token, as far as it is read: its [sub]
    member, [None] when the claim is absent. [decodeJwt] does not check the
    type of a claim, so [sub] is any JSON value. *)
Record JWTPayload : Type := mkJWTPayload { sub : option Value }.

(** [decodeJwt] of the [jose] library: the payload, or the error it
    throws on a malformed token. *)
Variable decodeJwt : string -> Thrown + JWTPayload.

(** The value of [encodedJWT && decodeJwt(encodedJWT)]: the falsy
    [encodedJWT] itself, or the decoded payload. *)
Inductive Decoded : Type :=
| Falsy (encodedJWT : option string)
| Payload (payload : JWTPayload).

(** [const decodedJWT = encodedJWT && decodeJwt(encodedJWT)], where
    [encodedJWT] is [Cookies.get("jwt")]. *)
Definition decodedJWT (encodedJWT : option string) : Thrown + Decoded :=
  match encodedJWT with
  | None => inr (Falsy encodedJWT)
  | Some token =>
      if String.eqb token "" then inr (Falsy encodedJWT)
      else match decodeJwt token with
           | inl e => inl e
           | inr payload => inr (Payload payload)
           end
  end.

(** What a member read gives in this module: a JSON value, or the method
    [String.prototype.sub]. *)
Inductive Member : Type :=
| Json (v : Value)
| StringPrototypeSub.

(** [decodedJWT?.sub]. [undefined?.sub] is [undefined]. A string is not
    nullish, so on the empty string the read gives the member [sub] of
    strings, the function [String.prototype.sub]. *)
Definition decoded_sub (d : Decoded) : option Member :=
  match d with
  | Falsy None => None
  | Falsy (Some _) => Some StringPrototypeSub
  | Payload payload => Json <$> sub payload
  end.

(** Truthiness of a member read; a function is truthy. *)
Definition member_truthy (m : option Member) : bool :=
  match m with
  | None => false
  | Some StringPrototypeSub => true
  | Some (Json v) => truthy (Some v)
  end.

(** [const userID = decodedJWT?.sub ? (decodedJWT.sub as string) : "anon"];
    the cast does not change the value. *)
Definition userID (encodedJWT : option string) : Thrown + Member :=
  match decodedJWT encodedJWT with
  | inl e => inl e
  | inr d =>
      match decoded_sub d with
      | Some m => if member_truthy (Some m) then inr m
                  else inr (Json (VStr "anon"))
      | None => inr (Json (VStr "anon"))
      end
  end.

End Client.

(** Further inputs for the examples. *)
Module Cases.

(** A row whose id is the string ["1"]. *)
Definition row_s1 : Row := [("id", VStr "1"); ("title", VStr "text id")].


(** Changes and expiries only. *)
Definition traffic : list (Z * @Event Sample.zero) :=
  [(0%Z, @EvPush Sample.zero (Add Sample.row2));
   (50%Z, @EvPush Sample.zero (Edit Sample.row1' Sample.row1));
   (200%Z, @EvTimer Sample.zero);
   (210%Z, @EvPush Sample.zero (Remove Sample.row2));
   (400%Z, @EvTimer Sample.zero)].

(** The module after one view with the subscriber ["a"] was materialized. *)
Definition one_view : @World Sample.zero :=
  fst (@getMaterializedFactoryView Sample.zero (Sample.query "q" None)
         (Sample.listener "a" 10) (@initial Sample.zero)).

(** A decoder that fails on ["garbage"] and otherwise reads the token as
    the subject. *)
Definition decode (token : string) : Thrown + JWTPayload :=
  if String.eqb token "garbage" then inl (ErrorInstance "Invalid JWT")
  else inr (mkJWTPayload (Some (VStr token))).

End Cases.

(* ===================================================================== *)
(** ** Strings and maps *)
(* ===================================================================== *)

Section StringFacts.

Lemma startsWith_spec (p s : string) :
  JsString.startsWith p s = true <-> exists post, s = p +:+ post.
Proof.
  revert s. induction p as [|a p IH]; intros s; simpl.
  - split; [intros _; now exists s | reflexivity].
  - destruct s as [|b s].
    + split; [discriminate | intros [post Hp]; discriminate].
    + rewrite andb_true_iff, IH. split.
      * intros [Hab [post ->]]. apply Ascii.eqb_eq in Hab as ->. now exists post.
      * intros [post Hp]. injection Hp as -> ->.
        split; [apply Ascii.eqb_refl | now exists post].
Qed.

Lemma includes_spec (needle s : string) :
  JsString.includes needle s = true <->
  exists pre post, s = pre +:+ needle +:+ post.
Proof.
  induction s as [|c s IH]; simpl.
  - rewrite orb_false_r, startsWith_spec. split.
    + intros [post Hp]. now exists "", post.
    + intros [pre [post Hp]]. destruct pre; [now exists post | discriminate].
  - rewrite orb_true_iff, startsWith_spec, IH. split.
    + intros [[post Hp] | [pre [post ->]]].
      * now exists "", post.
      * now exists (String c pre), post.
    + intros [pre [post Hp]]. destruct pre as [|x pre]; simpl in Hp.
      * left. now exists post.
      * right. injection Hp as _ ->. now exists pre, post.
Qed.

Lemma split_head (sep : Ascii.ascii) (a b : string) :
  JsString.free_of sep a = true ->
  head (JsString.split sep (a +:+ String sep b)) = Some a.
Proof.
  induction a as [|c a IH]; simpl; intros Hfree.
  - now rewrite Ascii.eqb_refl.
  - apply andb_true_iff in Hfree as [Hc Hfree].
    apply negb_true_iff in Hc. rewrite Hc.
    specialize (IH Hfree).
    destruct (JsString.split sep (a +:+ String sep b)) as [|h t];
      simpl in *; [discriminate | now injection IH as ->].
Qed.

Lemma operation_name_free (type : ChangeOperation) :
  JsString.free_of "-" (operation_name type) = true.
Proof. destruct type; reflexivity. Qed.

Lemma operation_name_inj (a b : ChangeOperation) :
  operation_name a = operation_name b -> a = b.
Proof. destruct a, b; simpl; intros Heq; (reflexivity || discriminate). Qed.

Lemma createDebounceKey_unfold (type : ChangeOperation) (nodeId : string) :
  createDebounceKey_ type nodeId = operation_name type +:+ String "-" nodeId.
Proof. reflexivity. Qed.

Lemma decript_create (type : ChangeOperation) (nodeId : string) :
  decriptDebounceKey_ (createDebounceKey_ type nodeId)
  = Some (operation_name type).
Proof.
  unfold decriptDebounceKey_. rewrite createDebounceKey_unfold.
  apply split_head, operation_name_free.
Qed.


Lemma createDebounceKey_inj (t1 t2 : ChangeOperation) (n1 n2 : string) :
  createDebounceKey_ t1 n1 = createDebounceKey_ t2 n2 -> t1 = t2 /\ n1 = n2.
Proof.
  intros Heq.
  assert (Ht : t1 = t2).
  { apply operation_name_inj.
    pose proof (decript_create t1 n1) as H1. rewrite Heq, decript_create in H1.
    now injection H1. }
  subst t2. split; [reflexivity |].
  destruct t1; simpl in Heq; now injection Heq.
Qed.

End StringFacts.

Section MapFacts.
Context {V : Type}.
Implicit Types (m : JsMap.t V) (k : string) (v : V).



Lemma has_key_set k k' v m :
  JsMap.has_key k' (JsMap.set k v m) = String.eqb k' k || JsMap.has_key k' m.
Proof.
  unfold JsMap.has_key, JsMap.keys.
  induction m as [|[k0 v0] m IH]; simpl.
  - reflexivity.
  - destruct (String.eqb_spec k k0) as [->|Hk]; simpl.
    + now destruct (String.eqb k' k0).
    + rewrite IH. destruct (String.eqb k' k0), (String.eqb k' k); reflexivity.
Qed.

Lemma wf_set k v m : JsMap.wf m = true -> JsMap.wf (JsMap.set k v m) = true.
Proof.
  induction m as [|[k0 v0] m IH]; simpl; [reflexivity |].
  intros Hwf. apply andb_true_iff in Hwf as [Hk0 Hwf].
  destruct (String.eqb_spec k k0) as [->|Hk]; simpl.
  - now rewrite Hk0, Hwf.
  - rewrite has_key_set, IH by assumption.
    destruct (String.eqb_spec k0 k); [congruence |]. simpl. now rewrite Hk0.
Qed.

Lemma has_key_delete k k' m :
  JsMap.has_key k' (JsMap.delete k m)
  = negb (String.eqb k' k) && JsMap.has_key k' m.
Proof.
  unfold JsMap.has_key, JsMap.keys.
  induction m as [|[k0 v0] m IH]; simpl.
  - now rewrite andb_false_r.
  - destruct (String.eqb_spec k k0) as [->|Hk]; simpl; rewrite IH.
    + now destruct (String.eqb k' k0).
    + destruct (String.eqb_spec k' k0) as [->|]; simpl; [|reflexivity].
      destruct (String.eqb_spec k0 k); [congruence | reflexivity].
Qed.

Lemma wf_delete k m : JsMap.wf m = true -> JsMap.wf (JsMap.delete k m) = true.
Proof.
  induction m as [|[k0 v0] m IH]; simpl; [reflexivity |].
  intros Hwf. apply andb_true_iff in Hwf as [Hk0 Hwf].
  destruct (String.eqb k k0); simpl; [now apply IH |].
  rewrite has_key_delete, IH by assumption.
  apply negb_true_iff in Hk0. rewrite Hk0. now rewrite andb_false_r.
Qed.


Lemma keys_delete k m :
  JsMap.keys (JsMap.delete k m)
  = List.filter (fun k' => negb (String.eqb k k')) (JsMap.keys m).
Proof.
  unfold JsMap.keys. induction m as [|[k0 v0] m IH]; simpl; [reflexivity |].
  destruct (String.eqb k k0); simpl; now rewrite IH.
Qed.


End MapFacts.

(* ===================================================================== *)
(** ** Properties of the view *)
(* ===================================================================== *)

Section ViewProperties.
Context `{Zero}.
Implicit Types (this : View) (change : Change Node ChildChange).

Lemma onData_no_row_call this : List.filter is_row_call (onData_ this) = [].
Proof.
  unfold onData_. induction (JsMap.values (subscriptions_ this)) as [|s l IH];
    simpl; [reflexivity |].
  rewrite List.filter_app, IH, app_nil_r. now destruct (onData s).
Qed.

Lemma deliver_all_row_calls subs entry :
  forallb is_row_call (deliver subs entry) = true.
Proof.
  destruct entry as [k d]. unfold deliver.
  destruct (typeToFunctionKey_ _); [|reflexivity].
  induction (JsMap.values subs) as [|s l IH]; simpl; [reflexivity |].
  rewrite forallb_app, IH, andb_true_r. now destruct (callback f s).
Qed.

Lemma handleConsolidated_all_row_calls this :
  forallb is_row_call (snd (handleConsolidated_ this)) = true.
Proof.
  unfold handleConsolidated_; simpl.
  induction (JsMap.entries (consolidatedCallbacks_ this)) as [|e l IH];
    simpl; [reflexivity |].
  now rewrite forallb_app, deliver_all_row_calls, IH.
Qed.

Lemma push_calls now change this :
  snd (push now change this) = onData_ (fst (applyChange_ change this)).
Proof. unfold push; simpl. now destruct (change_type change). Qed.

Lemma timerFired_all_row_calls now this :
  forallb is_row_call (snd (timerFired now this)) = true.
Proof.
  unfold timerFired.
  destruct (Debounce.timerExpired _ _ _) as [d [|]]; [|reflexivity].
  apply handleConsolidated_all_row_calls.
Qed.

Lemma applyFetched_data nodes this :
  data (fst (applyFetched nodes this))
  = fold_left (fun d node => applyChange d (Add node) (format_ this)) nodes
      (data this)
  /\ status (fst (applyFetched nodes this)) = status this
  /\ format_ (fst (applyFetched nodes this)) = format_ this.
Proof.
  revert this. induction nodes as [|node rest IH]; intros this; simpl.
  - auto.
  - specialize (IH (fst (applyChange_ (Add node) this))).
    destruct (applyFetched rest _) as [this2 calls2]; simpl in *.
    destruct IH as (Hd & Hs & Hf). auto.
Qed.


(** C8. Pushing a change of type ['child'] updates the result state and
    notifies the [onData] subscribers, and queues nothing: the
    consolidation queue and the debounce timer are left as they were, so no
    [onAdd]/[onRemove]/[onUpdate] call is made for it, now or when the
    timer fires. *)
Theorem child_change_is_not_consolidated
    (now : Z) (node : Node) (child : ChildChange) this :
  let this' := fst (push now (Child node child) this) in
  let calls := snd (push now (Child node child) this) in
  state_ this'
  = (applyChange (data this) (Child node child) (format_ this), status this)
  /\ calls
     = flat_map
         (fun callbacks =>
            match onData callbacks with
            | Some fn =>
                [CallData (key callbacks) fn
                   (applyChange (data this) (Child node child) (format_ this),
                    status this)]
            | None => []
            end)
         (JsMap.values (subscriptions_ this))
  /\ List.filter is_row_call calls = []
  /\ consolidatedCallbacks_ this' = consolidatedCallbacks_ this
  /\ handleConsolidatedDebounced_ this' = handleConsolidatedDebounced_ this
  /\ subscriptions_ this' = subscriptions_ this
  /\ forall later, snd (timerFired later this') = snd (timerFired later this).
Proof.
  simpl. split; [reflexivity |]. split; [reflexivity |].
  split; [apply onData_no_row_call |].
  repeat (split; [reflexivity |]).
  intros later. unfold timerFired; simpl.
  destruct (Debounce.timerExpired _ _ _) as [d [|]]; reflexivity.
Qed.

(** C7, amended. Delivery of [onAdd]/[onRemove]/[onUpdate] is deferred
    through the debounce timer: applying a change invokes none of them, and
    they are invoked only when the timer fires. [onData] is not deferred:
    every applied change invokes the [onData] callback of every
    subscription that has one, synchronously, with the updated result. *)
Theorem row_callbacks_are_deferred_onData_is_not (now : Z) change this :
  let this' := fst (push now change this) in
  let calls := snd (push now change this) in
  List.filter is_row_call calls = []
  /\ calls
     = flat_map
         (fun callbacks =>
            match onData callbacks with
            | Some fn =>
                [CallData (key callbacks) fn
                   (applyChange (data this) change (format_ this), status this)]
            | None => []
            end)
         (JsMap.values (subscriptions_ this))
  /\ forall later v, forallb is_row_call (snd (timerFired later v)) = true.
Proof.
  simpl. rewrite push_calls. repeat split.
  - apply onData_no_row_call.
  - intros later v. apply timerFired_all_row_calls.
Qed.

(** C3, amended. [destroy()] returns normally exactly when the teardown
    returns or throws an [Error] instance whose message contains
    ["Connection not found"] (capital C, compared case-sensitively); every
    other thrown value is thrown again, unchanged. *)
Theorem destroy_swallows_Connection_not_found this :
  (snd (destroy this) = Returned <->
   onDestroy_ this = None \/
   exists pre post,
     onDestroy_ this
     = Some (ErrorInstance (pre +:+ "Connection not found" +:+ post)))
  /\ (forall e, snd (destroy this) = Threw e <->
        onDestroy_ this = Some e /\
        ~ exists pre post,
            e = ErrorInstance (pre +:+ "Connection not found" +:+ post)).
Proof.
  unfold destroy. destruct (onDestroy_ this) as [[message|payload]|].
  - destruct (JsString.includes _ message) eqn:E; simpl.
    + apply includes_spec in E as (pre & post & ->). split.
      * split; [intros _; right; now exists pre, post | reflexivity].
      * intros e. split; [discriminate |].
        intros [He Hnot]. injection He as <-. exfalso. apply Hnot.
        now exists pre, post.
    + assert (Hnot : ~ exists pre post,
                 message = pre +:+ "Connection not found" +:+ post).
      { intros Hex. apply includes_spec in Hex. congruence. }
      split.
      * split; [discriminate |].
        intros [Hn | (pre & post & Heq)]; [discriminate |].
        injection Heq as ->. exfalso. apply Hnot. now exists pre, post.
      * intros e. split.
        -- intros He. injection He as <-. split; [reflexivity |].
           intros (pre & post & Heq). injection Heq as ->.
           apply Hnot. now exists pre, post.
        -- intros [He _]. now injection He as <-.
  - simpl. split.
    + split; [discriminate |].
      intros [Hn | (pre & post & Heq)]; discriminate.
    + intros e. split.
      * intros He. injection He as <-. split; [reflexivity |].
        intros (pre & post & Heq). discriminate.
      * intros [He _]. now injection He as <-.
  - simpl. split.
    + split; [now left | reflexivity].
    + intros e. split; [discriminate | intros [He _]; discriminate].
Qed.

(** C9. Right after construction the status is ['complete'] exactly when
    [queryComplete] is the literal [true], and ['unknown'] otherwise until
    the promise resolves; the data is the empty result ([[]], or
    [undefined] for a singular format) with an ['add'] change applied for
    every fetched node, in order; and the getter of the atom yields
    [[[], {type: 'unknown'}]] while it holds no view. *)
Theorem constructed_view_status_and_data
    (input : Input) (format : option Format) (onDestroy : option Thrown)
    (queryComplete : bool) (subscriptions : ChangeFactorySubscriptions) :
  let this := fst (new input format onDestroy queryComplete subscriptions) in
  let format' := default default_format format in
  (status this = complete <-> queryComplete = true)
  /\ status this = (if queryComplete then complete else unknown)
  /\ status (queryCompleteResolved this) = complete
  /\ data this
     = fold_left (fun d node => applyChange d (Add node) format') (fetch input)
         (if singular format' then Undefined else Plural [])
  /\ stateAtom_read None = (Plural [], unknown).
Proof.
  unfold new.
  match goal with
  | |- context [applyFetched ?ns ?v] =>
      pose proof (applyFetched_data ns v) as (Hd & Hs & Hf);
      destruct (applyFetched ns v) as [this1 calls]
  end.
  simpl in *. unfold status, data, queryCompleteResolved in *; simpl in *.
  repeat split.
  - rewrite Hs. destruct queryComplete; [reflexivity | discriminate].
  - intros ->. now rewrite Hs.
  - exact Hs.
  - destruct queryComplete; simpl; [exact Hs | reflexivity].
  - exact Hd.
Qed.

End ViewProperties.

(* ===================================================================== *)
(** ** Debounced delivery *)
(* ===================================================================== *)

Section Delivery.
Context `{Zero}.
Implicit Types (this : View) (es : list (Z * Event)).



Lemma subscriptions_wf_set opts (m : JsMap.t ChangeFactorySubscriptions) :
  subscriptions_wf m = true ->
  subscriptions_wf (JsMap.set (key opts) opts m) = true.
Proof.
  unfold subscriptions_wf. intros Hwf.
  apply andb_true_iff in Hwf as [Hwf Hkeyed].
  rewrite wf_set by assumption. simpl.
  clear Hwf. induction m as [|[k0 v0] m IH]; simpl in *.
  - now rewrite String.eqb_refl.
  - apply andb_true_iff in Hkeyed as [Hk0 Hkeyed].
    destruct (String.eqb (key opts) k0); simpl.
    + now rewrite String.eqb_refl, Hkeyed.
    + now rewrite Hk0, IH.
Qed.

Lemma subscriptions_wf_delete k (m : JsMap.t ChangeFactorySubscriptions) :
  subscriptions_wf m = true -> subscriptions_wf (JsMap.delete k m) = true.
Proof.
  unfold subscriptions_wf. intros Hwf.
  apply andb_true_iff in Hwf as [Hwf Hkeyed].
  rewrite wf_delete by assumption. simpl.
  clear Hwf. induction m as [|[k0 v0] m IH]; simpl in *; [reflexivity |].
  apply andb_true_iff in Hkeyed as [Hk0 Hkeyed].
  destruct (String.eqb k k0); simpl; [now apply IH |].
  now rewrite Hk0, IH.
Qed.




Lemma run_subscriptions_wf es : forall this,
  subscriptions_wf (subscriptions_ this) = true ->
  subscriptions_wf (subscriptions_ (fst (run es this))) = true.
Proof.
  induction es as [|[now e] es IH]; intros this Hwf; [exact Hwf |].
  cbn [run].
  assert (Hs : subscriptions_wf (subscriptions_ (fst (step (now, e) this)))
               = true).
  { destruct e as [change | | opts | k]; cbn [step].
    - unfold push; simpl. now destruct (change_type change).
    - unfold timerFired.
      destruct (Debounce.timerExpired _ _ _) as [d [|]]; exact Hwf.
    - now apply subscriptions_wf_set.
    - now apply subscriptions_wf_delete. }
  destruct (step (now, e) this) as [this1 calls1].
  specialize (IH this1 Hs).
  now destruct (run es this1).
Qed.









End Delivery.

(* ===================================================================== *)
(** ** Reference counting of the cached views *)
(* ===================================================================== *)

Section ReferenceCounting.
Context `{Zero}.
Implicit Types (w : World) (ops : list Operation) (object : View).

Lemma applyFetched_frame nodes : forall object,
  subscriptions_ (fst (applyFetched nodes object)) = subscriptions_ object
  /\ onDestroy_ (fst (applyFetched nodes object)) = onDestroy_ object.
Proof.
  induction nodes as [|node rest IH]; intros object; simpl; [auto |].
  specialize (IH (fst (applyChange_ (Add node) object))).
  destruct (applyFetched rest _) as [o2 c2]. simpl in *. exact IH.
Qed.

Lemma new_frame input format onDestroy queryComplete subscriptions :
  subscriptions_ (fst (new input format onDestroy queryComplete subscriptions))
  = [(key subscriptions, subscriptions)]
  /\ onDestroy_ (fst (new input format onDestroy queryComplete subscriptions))
     = onDestroy.
Proof.
  unfold new.
  match goal with
  | |- context [applyFetched ?ns ?v] =>
      pose proof (applyFetched_frame ns v) as [Hs Hd];
      destruct (applyFetched ns v) as [o1 calls]
  end.
  simpl in *. auto.
Qed.

Lemma step_external_frame e object :
  external e = true ->
  subscriptions_ (fst (step e object)) = subscriptions_ object
  /\ onDestroy_ (fst (step e object)) = onDestroy_ object.
Proof.
  destruct e as [now [change | | opts | k]]; simpl; try discriminate; intros _.
  - unfold push; simpl. now destruct (change_type change).
  - unfold timerFired.
    now destruct (Debounce.timerExpired _ _ _) as [d [|]].
Qed.

Lemma hasSubscribers_keys object :
  hasSubscribers object = negb (bool_decide (JsMap.keys (subscriptions_ object) = [])).
Proof.
  unfold hasSubscribers, JsMap.size, JsMap.keys.
  now destruct (subscriptions_ object).
Qed.

Lemma destroy_swallowed object :
  teardown_swallowed (onDestroy_ object) = true ->
  snd (destroy object) = Returned.
Proof.
  unfold destroy, teardown_swallowed.
  destruct (onDestroy_ object) as [[message|payload]|]; simpl;
    [intros -> | discriminate |]; reflexivity.
Qed.




Lemma destroy_subscriptions object :
  subscriptions_ (fst (destroy object)) = [].
Proof.
  unfold destroy.
  destruct (onDestroy_ object) as [[message|payload]|];
    [destruct (JsString.includes _ message)| |]; reflexivity.
Qed.






Lemma zeroQueryAtom_cached w query subscriptions syncOnData result :
  zeroQueryAtom_cache w !! getClientQueryKey query = Some result ->
  zeroQueryAtom query subscriptions syncOnData w = (w, inr result).
Proof. intros Hhit. unfold zeroQueryAtom. now rewrite Hhit. Qed.

Lemma until_throw_returned (calls : list Call) :
  Forall (fun c => call_outcome c = Returned) calls ->
  until_throw calls = (calls, Returned).
Proof.
  induction calls as [|c calls IH]; intros Hall; [reflexivity |].
  apply Forall_cons in Hall as [Hc Hcalls]. simpl.
  now rewrite Hc, (IH Hcalls).
Qed.

Lemma until_throw_prefix (calls : list Call) :
  exists rest, calls = fst (until_throw calls) ++ rest.
Proof.
  induction calls as [|c calls [rest IH]]; [now exists [] |]. simpl.
  destruct (call_outcome c).
  - destruct (until_throw calls) as [done outcome]. exists rest. simpl in *.
    now rewrite <- IH.
  - now exists calls.
Qed.

Lemma onData_returns this :
  Forall (fun e => returns (snd e) = true) (subscriptions_ this) ->
  Forall (fun c => call_outcome c = Returned) (onData_ this).
Proof.
  unfold onData_, JsMap.values.
  induction (subscriptions_ this) as [|[k c] m IH]; simpl; intros Hm;
    [constructor |].
  apply Forall_cons in Hm as [Hc Hm]. apply Forall_app_2; [|now apply IH].
  simpl in Hc. unfold returns in Hc.
  destruct (onData c) as [fn|]; [|constructor].
  repeat constructor. simpl. now destruct (onData_outcome fn).
Qed.

Lemma applyFetched_returns nodes : forall object,
  Forall (fun e => returns (snd e) = true) (subscriptions_ object) ->
  Forall (fun c => call_outcome c = Returned) (snd (applyFetched nodes object)).
Proof.
  induction nodes as [|node rest IH]; intros object Hm; [constructor |].
  simpl. specialize (IH (fst (applyChange_ (Add node) object)) Hm).
  destruct (applyFetched rest _) as [o2 c2]. simpl in IH |- *.
  apply Forall_app_2; [|exact IH].
  now apply (onData_returns (fst (applyChange_ (Add node) object))).
Qed.

(** The constructor returns when the initial result is empty or the
    [onData] of the subscription returns. *)
Lemma new_returns input format onDestroy queryComplete subscriptions :
  fetch input = [] \/ returns subscriptions = true ->
  until_throw (snd (new input format onDestroy queryComplete subscriptions))
  = (snd (new input format onDestroy queryComplete subscriptions), Returned).
Proof.
  intros Hquiet. apply until_throw_returned. unfold new.
  destruct Hquiet as [Hempty | Hreturns].
  - rewrite Hempty. simpl. constructor.
  - match goal with
    | |- context [applyFetched ?ns ?v] =>
        pose proof (applyFetched_returns ns v) as Hcalls;
        destruct (applyFetched ns v) as [o1 calls]
    end.
    apply Hcalls. simpl. now repeat constructor.
Qed.

(** The constructor throws at the first row of a non-empty initial result
    when the [onData] of the subscription writes the atom. *)
Lemma new_throws input format onDestroy queryComplete k stateAtom
    onAdd onRemove onUpdate node rest :
  fetch input = node :: rest ->
  exists result,
    until_throw
      (snd (new input format onDestroy queryComplete
              (mkSubscriptions k (Some (SyncStateAtom stateAtom true))
                 onAdd onRemove onUpdate)))
    = ([CallData k (SyncStateAtom stateAtom true) result],
       Threw atom_not_writable).
Proof.
  intros Hfetch. unfold new. rewrite Hfetch. cbn [applyFetched].
  unfold applyChange_ at 1.
  match goal with
  | |- context [applyFetched rest ?v] => destruct (applyFetched rest v)
  end.
  eexists. cbn. reflexivity.
Qed.

(** The first invocation for a query, when the constructor returns. *)
Lemma invoke_fresh w (query : Query) (subscriptions : ChangeFactorySubscriptions)
    (syncOnData : bool) :
  zeroQueryAtom_cache w !! getClientQueryKey query = None ->
  viewsMaterialized w !! getClientQueryKey query = None ->
  syncOnData = false \/ fetch (query_input query) = [] ->
  exists object calls,
    subscriptions_ object
    = [(key subscriptions,
        mkSubscriptions (key subscriptions)
          (Some (SyncStateAtom (atoms w) syncOnData))
          (onAdd subscriptions) (onRemove subscriptions)
          (onUpdate subscriptions))]
    /\ onDestroy_ object = query_onDestroy query
    /\ zeroQueryAtom query subscriptions syncOnData w
       = (mkWorld (heap w ++ [object])
            (<[getClientQueryKey query := length (heap w)]>
               (viewsMaterialized w))
            (<[getClientQueryKey query :=
                 mkQueryAtom (atoms w) (getClientQueryKey query)
                   (key subscriptions) (length (heap w))]>
               (zeroQueryAtom_cache w))
            (S (atoms w))
            (trace w
             ++ Materialized (getClientQueryKey query) (length (heap w))
                :: map Called calls),
          inr (mkQueryAtom (atoms w) (getClientQueryKey query)
                 (key subscriptions) (length (heap w)))).
Proof.
  intros Hmiss Hview Hquiet. unfold zeroQueryAtom. rewrite Hmiss.
  unfold getMaterializedFactoryView_throwing, materialize_calls,
    getMaterializedFactoryView.
  cbn [viewsMaterialized set_atoms]. rewrite Hview.
  unfold materialize, zeroChangeListenerFactory.
  rewrite new_returns.
  2:{ destruct Hquiet as [-> | Hempty]; [now right | now left]. }
  match goal with
  | |- context [new ?i ?f ?d ?c ?s] =>
      pose proof (new_frame i f d c s) as [Hsubs Hdestroy];
      destruct (new i f d c s) as [object calls]
  end.
  simpl in Hsubs, Hdestroy. exists object, calls.
  split; [exact Hsubs |]. split; [exact Hdestroy | reflexivity].
Qed.

(** The first invocation for a query, when the constructor throws. *)
Lemma invoke_throws w (query : Query)
    (subscriptions : ChangeFactorySubscriptions) node rest :
  zeroQueryAtom_cache w !! getClientQueryKey query = None ->
  viewsMaterialized w !! getClientQueryKey query = None ->
  fetch (query_input query) = node :: rest ->
  exists result,
    zeroQueryAtom query subscriptions true w
    = (emit [Called (CallData (key subscriptions)
                       (SyncStateAtom (atoms w) true) result)]
         (set_atoms (S (atoms w)) w),
       inl atom_not_writable).
Proof.
  intros Hmiss Hview Hfetch. unfold zeroQueryAtom. rewrite Hmiss.
  unfold getMaterializedFactoryView_throwing, materialize_calls.
  cbn [viewsMaterialized set_atoms]. rewrite Hview.
  unfold materialize, zeroChangeListenerFactory.
  destruct (new_throws (query_input query) (Some (query_format query))
              (query_onDestroy query) (query_queryComplete query)
              (key subscriptions) (atoms w) (onAdd subscriptions)
              (onRemove subscriptions) (onUpdate subscriptions) node rest
              Hfetch) as [result ->].
  now exists result.
Qed.

(** What [zeroQueryAtom] returns is memoized. *)
Lemma zeroQueryAtom_caches_result query subscriptions syncOnData w w1 result :
  zeroQueryAtom query subscriptions syncOnData w = (w1, inr result) ->
  zeroQueryAtom_cache w1 !! getClientQueryKey query = Some result.
Proof.
  unfold zeroQueryAtom.
  destruct (zeroQueryAtom_cache w !! getClientQueryKey query) eqn:Hc.
  - intros Heq. injection Heq as <- <-. exact Hc.
  - destruct (getMaterializedFactoryView_throwing _ _ _) as [w0 [e|view]];
      [discriminate |].
    intros Heq. injection Heq as <- <-. simpl. apply lookup_insert_eq.
Qed.

(** [getMaterializedFactoryView] on a cached key returns the cached view,
    registers the subscriptions on it and materializes nothing. *)
Lemma getMaterializedFactoryView_cached w query subscriptions view :
  viewsMaterialized w !! getClientQueryKey query = Some view ->
  getMaterializedFactoryView query subscriptions w
  = (set_heap (alter (addSubscriptions subscriptions) view (heap w)) w, view).
Proof. intros Hhit. unfold getMaterializedFactoryView. now rewrite Hhit. Qed.

Lemma applyFetched_queue nodes : forall object,
  consolidatedCallbacks_ (fst (applyFetched nodes object))
  = consolidatedCallbacks_ object.
Proof.
  induction nodes as [|node rest IH]; intros object; simpl; [reflexivity |].
  specialize (IH (fst (applyChange_ (Add node) object))).
  destruct (applyFetched rest _) as [o2 c2]. simpl in *. exact IH.
Qed.

(** A constructed view satisfies the representation invariants of its two
    maps. *)
Lemma new_well_formed input format onDestroy queryComplete subscriptions :
  let this := fst (new input format onDestroy queryComplete subscriptions) in
  JsMap.wf (consolidatedCallbacks_ this) = true
  /\ subscriptions_wf (subscriptions_ this) = true.
Proof.
  cbv zeta.
  destruct (new_frame input format onDestroy queryComplete subscriptions)
    as [Hsubs _].
  rewrite Hsubs. split.
  - unfold new.
    match goal with
    | |- context [applyFetched ?ns ?v] =>
        pose proof (applyFetched_queue ns v) as Hq;
        destruct (applyFetched ns v) as [o1 calls]
    end.
    simpl in *. now rewrite Hq.
  - unfold subscriptions_wf; simpl. now rewrite String.eqb_refl.
Qed.

Lemma covered_initial : covered initial.
Proof. intros k [v Hv]. simpl in Hv. now rewrite lookup_empty in Hv. Qed.

(** The memoized atom keeps the view cache covered; under a covered cache
    the body of [zeroQueryAtom] never finds a cached view, so the branch of
    [getMaterializedFactoryView] that registers further subscriptions is
    not reached through [zeroQueryAtom]. *)
Lemma zeroQueryAtom_covered w query subscriptions syncOnData :
  covered w ->
  covered (fst (zeroQueryAtom query subscriptions syncOnData w))
  /\ (zeroQueryAtom_cache w !! getClientQueryKey query = None ->
      viewsMaterialized w !! getClientQueryKey query = None).
Proof.
  intros Hcov. split.
  - unfold zeroQueryAtom.
    destruct (zeroQueryAtom_cache w !! getClientQueryKey query) eqn:Hc;
      [exact Hcov |].
    unfold getMaterializedFactoryView_throwing, materialize_calls,
      getMaterializedFactoryView.
    cbn [viewsMaterialized set_atoms].
    destruct (viewsMaterialized w !! getClientQueryKey query) eqn:Hv.
    + destruct (Hcov (getClientQueryKey query)) as [r Hr]; [eauto | congruence].
    + destruct (until_throw _) as [done [|e]]; [|exact Hcov].
      destruct (materialize _ _) as [object calls]. intros k. simpl.
      destruct (String.eqb_spec (getClientQueryKey query) k) as [<-|Hk].
      * rewrite !lookup_insert_eq. eauto.
      * rewrite !lookup_insert_ne by assumption. apply Hcov.
  - intros Hc. destruct (viewsMaterialized w !! _) eqn:Hv; [|reflexivity].
    destruct (Hcov (getClientQueryKey query)) as [r Hr]; [eauto | congruence].
Qed.

Lemma cleanup_covered w queryKey subscriptionKey :
  covered w ->
  covered (fst (cleanupMaterializedFactoryView queryKey subscriptionKey w)).
Proof.
  intros Hcov. unfold cleanupMaterializedFactoryView.
  destruct (viewsMaterialized w !! queryKey) as [view|]; [|exact Hcov].
  destruct (heap w !! view) as [object|]; [|exact Hcov].
  destruct (hasSubscribers _); [exact Hcov |].
  destruct (destroy _) as [object2 [|e]]; [|exact Hcov].
  intros k. simpl. intros [v Hv].
  apply lookup_delete_Some in Hv as [_ Hv]. apply Hcov. eauto.
Qed.



End ReferenceCounting.

(* ===================================================================== *)
(** ** The properties at concrete inputs *)
(* ===================================================================== *)

Section Examples.
#[local] Existing Instance Sample.zero.





(** An error whose message reads "connection not found" in lower case is
    not swallowed. *)
Lemma lowercase_connection_not_found_is_thrown :
  JsString.includes "connection not found" "connection not found" = true
  /\ snd (destroy
            (Sample.view_a (Some (ErrorInstance "connection not found"))))
     = Threw (ErrorInstance "connection not found").
Proof. split; vm_compute; reflexivity. Qed.

(** Applying a change invokes [onData] before [push] returns. *)
Lemma onData_is_invoked_while_the_change_is_applied :
  snd (push 0 (Add Sample.row2) (Sample.view_a None))
  = [CallData "a" (UserOnData 10)
       (Plural [Sample.row1; Sample.row2], complete)].
Proof. vm_compute. reflexivity. Qed.

(** C4 at the failing input. Two callers invoke [zeroQueryAtom] for the
    same query, whose result is empty when it is materialized, with the
    subscription keys ["a"] and ["b"]: the second call returns the memoized
    result of the first and leaves the module state as it was, so the view
    carries only the key ["a"], the callbacks of ["b"] are registered
    nowhere, and the [cleanup] handed to the second caller releases the
    key ["a"]. *)
Theorem second_caller_is_not_registered :
  let first := zeroQueryAtom Sample.q1 (Sample.listener "a" 10) true initial in
  let second :=
    zeroQueryAtom Sample.q1 (Sample.listener "b" 20) true (fst first) in
  fetch (query_input Sample.q1) = []
  /\ snd first = inr (mkQueryAtom 0 "q1-c1" "a" 0)
  /\ snd second = snd first
  /\ fst second = fst first
  /\ subscriptions_ <$> heap (fst second) !! 0
     = Some [("a", mkSubscriptions "a" (Some (SyncStateAtom 0 true))
                     (Some 11) (Some 12) (Some 13))].
Proof. vm_compute. repeat split; reflexivity. Qed.

(** The same with a row in the initial result, for callers that pass
    [syncOnData: false]. *)
Lemma second_caller_is_not_registered_without_sync :
  let first :=
    zeroQueryAtom (Sample.query "q" None) (Sample.listener "a" 10) false
      initial in
  let second :=
    zeroQueryAtom (Sample.query "q" None) (Sample.listener "b" 20) false
      (fst first) in
  snd first = inr (mkQueryAtom 0 "q-c1" "a" 0)
  /\ second = first
  /\ (JsMap.keys ∘ subscriptions_) <$> heap (fst second) !! 0 = Some ["a"].
Proof. vm_compute. repeat split; reflexivity. Qed.

(** With a row in the initial result and [syncOnData] left at its default,
    the invocation throws out of the first [onData] call, and neither the
    view nor the result is cached. *)
Lemma invocation_over_initial_rows_throws :
  let invoked :=
    zeroQueryAtom (Sample.query "q" None) (Sample.listener "a" 10) true
      initial in
  snd invoked = inl atom_not_writable
  /\ trace (fst invoked)
     = [Called (CallData "a" (SyncStateAtom 0 true)
                  (Plural [Sample.row1], complete))]
  /\ viewsMaterialized (fst invoked) = ∅
  /\ zeroQueryAtom_cache (fst invoked) = ∅
  /\ atoms (fst invoked) = 1.
Proof. vm_compute. repeat split; reflexivity. Qed.

(** C5 at the failing input. A component mounts on a query whose result is
    empty, with the subscription key ["a"], and unmounts: the view is still
    cached, still carries the key ["a"], and has not been torn down. *)
Theorem unmount_leaves_the_subscription_registered :
  let mounted :=
    useZeroQueryAtom Sample.q1 (Sample.listener "a" 10) None initial in
  let c := mkComponent "q1-c1" "q1-c1" in
  let w := unmount c (fst (fst mounted)) in
  fetch (query_input Sample.q1) = []
  /\ snd (fst mounted) = Some c
  /\ snd mounted = Returned
  /\ viewsMaterialized w !! "q1-c1" = Some 0
  /\ (JsMap.keys ∘ subscriptions_) <$> heap w !! 0 = Some ["a"]
  /\ torn_down 0 w = false.
Proof. vm_compute. repeat split; reflexivity. Qed.

(** C6 at the failing input. The results of [q1] and [q2] are empty when
    they are materialized. Component A is mounted on query [q2] with the
    key ["a"], component B on [q1] with the key ["b"]; B then renders with
    [q2]. The hook calls the [cleanup] memoized for [q2], which releases
    the key ["a"] from the view of [q1]: the key ["b"] of B stays
    registered there and the view stays cached. The new query key is
    recorded as current. *)
Theorem query_change_leaves_the_previous_subscription :
  let a := useZeroQueryAtom Sample.q2 (Sample.listener "a" 10) None initial in
  let b :=
    useZeroQueryAtom Sample.q1 (Sample.listener "b" 20) None (fst (fst a)) in
  let b' :=
    useZeroQueryAtom Sample.q2 (Sample.listener "b" 20)
      (snd (fst b)) (fst (fst b)) in
  let w := fst (fst b') in
  fetch (query_input Sample.q1) = []
  /\ fetch (query_input Sample.q2) = []
  /\ snd a = Returned
  /\ (snd (fst b), snd b) = (Some (mkComponent "q1-c1" "q1-c1"), Returned)
  /\ (snd (fst b'), snd b') = (Some (mkComponent "q2-c1" "q2-c1"), Returned)
  /\ viewsMaterialized w !! "q1-c1" = Some 1
  /\ (JsMap.keys ∘ subscriptions_) <$> heap w !! 1 = Some ["b"]
  /\ torn_down 1 w = false
  /\ (JsMap.keys ∘ subscriptions_) <$> heap w !! 0 = Some ["a"].
Proof. vm_compute. repeat split; reflexivity. Qed.

(** When the component is the only user of both queries the previous
    subscription is released and its view torn down. *)
Lemma query_change_alone_releases_the_previous_view :
  let b := useZeroQueryAtom Sample.q1 (Sample.listener "b" 20) None initial in
  let b' :=
    useZeroQueryAtom Sample.q2 (Sample.listener "b" 20)
      (snd (fst b)) (fst (fst b)) in
  let w := fst (fst b') in
  (snd (fst b'), snd b') = (Some (mkComponent "q2-c1" "q2-c1"), Returned)
  /\ viewsMaterialized w !! "q1-c1" = None
  /\ torn_down 0 w = true
  /\ viewsMaterialized w !! "q2-c1" = Some 1.
Proof. vm_compute. repeat split; reflexivity. Qed.

End Examples.

(* ===================================================================== *)
(** ** Keys: query identity, node ids, queue entries *)
(* ===================================================================== *)

Section Keys.
Context `{Zero}.
Implicit Types (a b : Node).

Lemma length_append (a b : string) :
  String.length (a +:+ b) = String.length a + String.length b.
Proof. induction a as [|x a IH]; simpl; [reflexivity | now rewrite IH]. Qed.

Lemma append_cancel_r (a b c : string) : a +:+ c = b +:+ c -> a = b.
Proof.
  revert b. induction a as [|x a IH]; intros [|y b] Heq.
  - reflexivity.
  - apply (f_equal String.length) in Heq.
    rewrite !length_append in Heq. simpl in Heq. lia.
  - apply (f_equal String.length) in Heq.
    rewrite !length_append in Heq. simpl in Heq. lia.
  - change (String x (a +:+ c) = String y (b +:+ c)) in Heq.
    injection Heq as -> Heq. f_equal. now apply IH.
Qed.

Lemma pretty_N_go_length (x : N) : forall s,
  String.length s <= String.length (pretty_N_go x s).
Proof.
  induction (N.lt_wf_0 x) as [x _ IH]; intros s.
  destruct (N.eq_dec x 0%N) as [->|Hx]; [now rewrite pretty_N_go_0 |].
  rewrite pretty_N_go_step by lia.
  etransitivity; [|apply IH; apply N.div_lt; lia]. simpl. lia.
Qed.

Lemma pretty_Z_nonempty (n : Z) : pretty n <> "".
Proof.
  destruct n as [|p|p]; [discriminate | | discriminate].
  unfold pretty, pretty_Z, pretty, pretty_positive, pretty, pretty_N.
  destruct (decide (N.pos p = 0%N)); [discriminate |].
  rewrite pretty_N_go_step by lia. intros Hempty.
  pose proof (pretty_N_go_length (N.pos p `div` 10)
                (String (pretty_N_char (N.pos p `mod` 10)) "")) as Hlen.
  rewrite Hempty in Hlen. simpl in Hlen. lia.
Qed.

Lemma getNodeId_numeric a (n : Z) (safe : Is_true (safe_integer n)) :
  prop "id" (row a) = Some (VNum n safe) -> n <> 0%Z ->
  getNodeId_ a = pretty n.
Proof.
  intros Hid Hn. unfold getNodeId_, js_or. rewrite Hid. simpl.
  destruct (Z.eqb_spec n 0); [contradiction |]. simpl.
  destruct (Z.eqb_spec n 0); [contradiction | reflexivity].
Qed.


Lemma push_queue now (change : Change Node ChildChange) (this : View) :
  consolidatedCallbacks_ (fst (push now change this))
  = match change_type change with
    | Some type =>
        JsMap.set (createDebounceKey_ type (getNodeId_ (change_node change)))
          (row (change_node change)) (consolidatedCallbacks_ this)
    | None => consolidatedCallbacks_ this
    end.
Proof. unfold push; simpl. now destruct (change_type change). Qed.

(** X1. Two queries are given the same view-cache key exactly when they
    have the same hash: for one client, queries with different hashes never
    share a view and queries with the same hash always do. *)
Theorem same_query_key_iff_same_hash (q1 q2 : Query) :
  getClientQueryKey q1 = getClientQueryKey q2 <-> hash q1 = hash q2.
Proof.
  unfold getClientQueryKey. split; [|now intros ->].
  apply append_cancel_r.
Qed.

(** X2. The key of a queue entry determines the operation and the node id:
    two changes fall on the same entry exactly when they have the same
    operation and the same node id, also when node ids contain ['-']. *)
Theorem queue_key_identifies_operation_and_node
    (t1 t2 : ChangeOperation) (n1 n2 : string) :
  createDebounceKey_ t1 n1 = createDebounceKey_ t2 n2 <-> t1 = t2 /\ n1 = n2.
Proof.
  split; [apply createDebounceKey_inj | now intros [-> ->]].
Qed.

(** X3. Rows whose ids are non-zero safe integers (numbers of magnitude
    below 2^53 without fraction) get the same node id exactly when the ids
    are equal, whatever their other columns hold. *)
Theorem numeric_ids_identify_rows a b (n m : Z)
    (safe_n : Is_true (safe_integer n)) (safe_m : Is_true (safe_integer m)) :
  prop "id" (row a) = Some (VNum n safe_n) ->
  prop "id" (row b) = Some (VNum m safe_m) ->
  n <> 0%Z -> m <> 0%Z ->
  (getNodeId_ a = getNodeId_ b <-> n = m).
Proof.
  intros Ha Hb Hn Hm.
  rewrite (getNodeId_numeric a n safe_n), (getNodeId_numeric b m safe_m)
    by assumption.
  split; [apply (inj pretty) | now intros ->].
Qed.

(** X4. The node id is the string form of the id: a row whose id is the
    non-zero safe integer [n] (a number of magnitude below 2^53 without
    fraction) and a row whose id is the string of the decimal digits of [n]
    get the same node id, so their changes share queue entries. *)
Theorem number_and_string_ids_coincide a b (n : Z)
    (safe : Is_true (safe_integer n)) (type : ChangeOperation) :
  prop "id" (row a) = Some (VNum n safe) ->
  prop "id" (row b) = Some (VStr (pretty n)) ->
  n <> 0%Z ->
  getNodeId_ a = getNodeId_ b
  /\ createDebounceKey_ type (getNodeId_ a)
     = createDebounceKey_ type (getNodeId_ b).
Proof.
  intros Ha Hb Hn.
  assert (Heq : getNodeId_ a = getNodeId_ b).
  { rewrite (getNodeId_numeric a n safe) by assumption.
    assert (Ht : truthy (Some (VStr (pretty n))) = true).
    { simpl. destruct (String.eqb_spec (pretty n) ""); [|reflexivity].
      now destruct (pretty_Z_nonempty n). }
    unfold getNodeId_, js_or. rewrite Hb, Ht. cbv iota. now rewrite Ht. }
  split; [exact Heq | now rewrite Heq].
Qed.


End Keys.

(* ===================================================================== *)
(** ** What a view does over its life *)
(* ===================================================================== *)

Section Lifetime.
Context `{Zero}.
Implicit Types (this : View) (es : list (Z * Event)).

Lemma silent_onData this :
  all_silent (subscriptions_ this) = true -> onData_ this = [].
Proof.
  unfold onData_, all_silent, JsMap.values.
  induction (subscriptions_ this) as [|[k c] m IH]; simpl; [reflexivity |].
  intros Hs. apply andb_true_iff in Hs as [Hc Hm]. rewrite (IH Hm).
  unfold silent in Hc. now destruct (onData c).
Qed.

Lemma silent_deliver (subs : JsMap.t ChangeFactorySubscriptions) entry :
  all_silent subs = true -> deliver subs entry = [].
Proof.
  destruct entry as [k d]. unfold deliver, all_silent, JsMap.values.
  destruct (typeToFunctionKey_ _) as [fk|]; [|reflexivity].
  induction subs as [|[k' c] m IH]; simpl; [reflexivity |].
  intros Hs. apply andb_true_iff in Hs as [Hc Hm]. rewrite (IH Hm).
  unfold silent in Hc.
  destruct (onData c), (onAdd c) eqn:?, (onRemove c) eqn:?, (onUpdate c) eqn:?;
    try discriminate.
  destruct fk; simpl; now rewrite ?Heqo, ?Heqo0, ?Heqo1.
Qed.

Lemma silent_step e this :
  all_silent (subscriptions_ this) = true -> external e = true ->
  snd (step e this) = []
  /\ subscriptions_ (fst (step e this)) = subscriptions_ this.
Proof.
  intros Hs He. split; [|now apply step_external_frame].
  destruct e as [now [change | | opts | k]]; simpl in He; try discriminate;
    cbn [step].
  - rewrite push_calls. now apply silent_onData.
  - unfold timerFired.
    destruct (Debounce.timerExpired _ _ _) as [d [|]]; [|reflexivity].
    unfold handleConsolidated_; simpl.
    induction (JsMap.entries (consolidatedCallbacks_ this)) as [|x l IH];
      simpl; [reflexivity |].
    now rewrite silent_deliver, IH.
Qed.

Lemma silent_run es : forall this,
  all_silent (subscriptions_ this) = true -> forallb external es = true ->
  snd (run es this) = [].
Proof.
  induction es as [|e es IH]; intros this Hs Hes; [reflexivity |].
  simpl in Hes. apply andb_true_iff in Hes as [He Hes].
  destruct (silent_step e this Hs He) as [Hcalls Hsubs].
  cbn [run]. destruct (step e this) as [this1 calls1]. simpl in Hcalls, Hsubs.
  rewrite <- Hsubs in Hs. specialize (IH this1 Hs Hes).
  destruct (run es this1) as [this2 calls2]. simpl in IH |- *.
  now rewrite Hcalls, IH.
Qed.

Lemma silent_applyFetched nodes : forall this,
  all_silent (subscriptions_ this) = true -> snd (applyFetched nodes this) = [].
Proof.
  induction nodes as [|node rest IH]; intros this Hs; [reflexivity |].
  simpl. specialize (IH (fst (applyChange_ (Add node) this)) Hs).
  destruct (applyFetched rest _) as [this2 calls2]. simpl in IH |- *.
  now rewrite silent_onData, IH.
Qed.

(** X6. A view built by [zeroChangeListenerFactoryInternal] invokes no
    callback, neither during construction nor for any change pushed to it or
    any expiry of its timer afterwards. *)
Theorem internal_factory_view_invokes_nothing
    (q : Query) (input : Input) (format : Format) (onDestroy : option Thrown)
    (queryComplete : bool) es :
  forallb external es = true ->
  snd (zeroChangeListenerFactoryInternal q input format onDestroy queryComplete)
  = []
  /\ snd (run es (fst (zeroChangeListenerFactoryInternal q input format
                         onDestroy queryComplete))) = [].
Proof.
  intros Hes. unfold zeroChangeListenerFactoryInternal.
  pose proof (new_frame input (Some format) onDestroy queryComplete
                (mkSubscriptions "a" None None None None)) as [Hsubs _].
  split.
  - unfold new.
    match goal with
    | |- context [applyFetched ?ns ?v] =>
        pose proof (silent_applyFetched ns v eq_refl) as Hcalls;
        destruct (applyFetched ns v) as [o1 calls]
    end.
    exact Hcalls.
  - apply silent_run; [|exact Hes]. now rewrite Hsubs.
Qed.

(** X7. [destroy()] leaves the view without subscribers, and from then on
    no callback is invoked, whatever changes are pushed and whenever the
    timer (which [destroy] does not cancel) fires; this holds whether
    [destroy] returns or throws. *)
Theorem destroyed_view_invokes_nothing this es :
  forallb external es = true ->
  hasSubscribers (fst (destroy this)) = false
  /\ consolidatedCallbacks_ (fst (destroy this)) = []
  /\ snd (run es (fst (destroy this))) = [].
Proof.
  intros Hes.
  assert (Hsubs : subscriptions_ (fst (destroy this)) = []
                  /\ consolidatedCallbacks_ (fst (destroy this)) = []).
  { unfold destroy.
    destruct (onDestroy_ this) as [[message|payload]|];
      [destruct (JsString.includes _ message)| |]; now split. }
  destruct Hsubs as [Hsubs Hqueue].
  split; [unfold hasSubscribers; now rewrite Hsubs |].
  split; [exact Hqueue |].
  apply silent_run; [now rewrite Hsubs | exact Hes].
Qed.

(** X8. Two expiries of the timer in a row never both deliver: once the
    timer has run the handler, the queue is empty and the timer is not
    armed again until a change is pushed. *)
Theorem consecutive_expiries_deliver_once (t1 t2 : Z) this :
  snd (timerFired t1 this) = []
  \/ snd (timerFired t2 (fst (timerFired t1 this))) = [].
Proof.
  unfold timerFired.
  destruct (Debounce.timerExpired 100 t1 (handleConsolidatedDebounced_ this))
    as [d [|]] eqn:Hfirst; [right | now left].
  assert (Hidle : Debounce.timerId d = false).
  { unfold Debounce.timerExpired in Hfirst.
    destruct (Debounce.timerId _); [|discriminate].
    destruct (Debounce.shouldInvoke _ _ _); [|discriminate].
    now injection Hfirst as <- _. }
  simpl. unfold Debounce.timerExpired. now rewrite Hidle.
Qed.

Lemma run_queue_wf es : forall this,
  JsMap.wf (consolidatedCallbacks_ this) = true ->
  JsMap.wf (consolidatedCallbacks_ (fst (run es this))) = true.
Proof.
  induction es as [|[now e] es IH]; intros this Hwf; [exact Hwf |].
  cbn [run].
  assert (Hs : JsMap.wf (consolidatedCallbacks_ (fst (step (now, e) this)))
               = true).
  { destruct e as [change | | opts | k]; cbn [step]; try exact Hwf.
    - rewrite push_queue. destruct (change_type change);
        [now apply wf_set | exact Hwf].
    - unfold timerFired.
      destruct (Debounce.timerExpired _ _ _) as [d [|]];
        [reflexivity | exact Hwf]. }
  destruct (step (now, e) this) as [this1 calls1].
  specialize (IH this1 Hs). now destruct (run es this1).
Qed.

(** X9. Whatever happens to a constructed view (changes, expiries of the
    timer, subscriptions added and removed), every subscription stays
    registered under its own key, no key is registered twice, and no queue
    key occurs twice. *)
Theorem constructed_views_stay_well_formed
    (input : Input) (format : option Format) (onDestroy : option Thrown)
    (queryComplete : bool) (subscriptions : ChangeFactorySubscriptions) es :
  let this :=
    fst (run es
           (fst (new input format onDestroy queryComplete subscriptions))) in
  JsMap.wf (consolidatedCallbacks_ this) = true
  /\ subscriptions_wf (subscriptions_ this) = true.
Proof.
  cbv zeta.
  destruct (new_well_formed input format onDestroy queryComplete subscriptions)
    as [Hq Hs].
  split; [now apply run_queue_wf | now apply run_subscriptions_wf].
Qed.

Lemma step_status e this :
  status (fst (step e this)) = status this
  /\ forallb (reports (status this)) (snd (step e this)) = true.
Proof.
  destruct e as [now [change | | opts | k]]; cbn [step].
  - split; [unfold push; simpl; now destruct (change_type change) |].
    rewrite push_calls. unfold onData_, applyChange_; simpl.
    induction (JsMap.values (subscriptions_ this)) as [|c l IH];
      simpl; [reflexivity |].
    rewrite forallb_app, IH, andb_true_r.
    destruct (onData c); simpl; [|reflexivity].
    unfold status. simpl. now destruct (snd (state_ this)).
  - unfold timerFired.
    destruct (Debounce.timerExpired _ _ _) as [d [|]]; [|now split].
    split; [reflexivity |]. unfold handleConsolidated_; simpl.
    induction (JsMap.entries (consolidatedCallbacks_ this)) as [|x l IH];
      simpl; [reflexivity |].
    rewrite forallb_app, IH, andb_true_r.
    destruct x as [k d']. unfold deliver.
    destruct (typeToFunctionKey_ _) as [fk|]; [|reflexivity].
    induction (JsMap.values (subscriptions_ this)) as [|c l' IH'];
      simpl; [reflexivity |].
    rewrite forallb_app, IH', andb_true_r. now destruct (callback fk c).
  - now split.
  - now split.
Qed.

(** X10. No change, expiry of the timer or (un)subscription alters the
    status of a view: it is what the constructor set until the
    [queryComplete] promise resolves, and every [onData] invocation reports
    that status. *)
Theorem status_is_kept_by_every_event es : forall this,
  status (fst (run es this)) = status this
  /\ forallb (reports (status this)) (snd (run es this)) = true.
Proof.
  induction es as [|e es IH]; intros this; [now split |].
  cbn [run]. destruct (step_status e this) as [Hst Hcalls].
  destruct (step e this) as [this1 calls1]. simpl in Hst, Hcalls.
  specialize (IH this1). destruct (run es this1) as [this2 calls2].
  simpl in IH |- *. destruct IH as [IH1 IH2]. rewrite Hst in IH1, IH2.
  split; [exact IH1 |]. now rewrite forallb_app, Hcalls, IH2.
Qed.


End Lifetime.

(* ===================================================================== *)
(** ** Cleanup and registration on the cache *)
(* ===================================================================== *)

Section Cleanup.
Context `{Zero}.
Implicit Types (w : World) (object : View).

Lemma delete_delete {V} (k : string) (m : JsMap.t V) :
  JsMap.delete k (JsMap.delete k m) = JsMap.delete k m.
Proof.
  induction m as [|[k' v] m IH]; simpl; [reflexivity |].
  destruct (String.eqb k k') eqn:E; simpl; [exact IH | now rewrite E, IH].
Qed.

Lemma delete_absent {V} (k : string) (m : JsMap.t V) :
  JsMap.has_key k m = false -> JsMap.delete k m = m.
Proof.
  unfold JsMap.has_key, JsMap.keys.
  induction m as [|[k' v] m IH]; simpl; [reflexivity |].
  intros Habs. apply orb_false_iff in Habs as [Hk Hm].
  now rewrite Hk, IH.
Qed.

Lemma removeSubscriptions_twice k object :
  removeSubscriptions k (removeSubscriptions k object)
  = removeSubscriptions k object.
Proof.
  unfold removeSubscriptions, set_subscriptions; simpl.
  now rewrite delete_delete.
Qed.

Lemma removeSubscriptions_absent k object :
  JsMap.has_key k (subscriptions_ object) = false ->
  removeSubscriptions k object = object.
Proof.
  intros Habs. unfold removeSubscriptions, set_subscriptions.
  rewrite delete_absent by assumption. now destruct object.
Qed.

Lemma set_heap_same w : set_heap (heap w) w = w.
Proof. now destruct w. Qed.

(** Releasing the last key of a view whose teardown is let pass. *)
Lemma cleanup_of_the_last_key w (queryKey subscriptionKey : string)
    (view : nat) object :
  viewsMaterialized w !! queryKey = Some view ->
  heap w !! view = Some object ->
  hasSubscribers (removeSubscriptions subscriptionKey object) = false ->
  teardown_swallowed (onDestroy_ object) = true ->
  exists object2,
    cleanupMaterializedFactoryView queryKey subscriptionKey w
    = (set_viewsMaterialized (delete queryKey (viewsMaterialized w))
         (emit [TornDown view] (set_heap (<[view := object2]> (heap w)) w)),
       Returned)
    /\ subscriptions_ object2 = [].
Proof.
  intros Hview Hobj Hgone Hsw. unfold cleanupMaterializedFactoryView.
  rewrite Hview, Hobj, Hgone.
  pose proof (destroy_swallowed (removeSubscriptions subscriptionKey object)
                Hsw) as Hret.
  assert (Hempty : subscriptions_
                     (fst (destroy (removeSubscriptions subscriptionKey object)))
                   = []).
  { unfold destroy.
    destruct (onDestroy_ _) as [[message|payload]|];
      [destruct (JsString.includes _ message)| |]; reflexivity. }
  destruct (destroy _) as [object2 outcome]. simpl in Hret, Hempty.
  subst outcome. now exists object2.
Qed.

(** X12. Calling [cleanupMaterializedFactoryView] again with the same
    arguments after it returned changes nothing: the key is already gone
    from the view, or the view is already gone from the cache. *)
Theorem cleanup_twice_is_cleanup_once (queryKey subscriptionKey : string) w :
  snd (cleanupMaterializedFactoryView queryKey subscriptionKey w) = Returned ->
  cleanupMaterializedFactoryView queryKey subscriptionKey
    (fst (cleanupMaterializedFactoryView queryKey subscriptionKey w))
  = (fst (cleanupMaterializedFactoryView queryKey subscriptionKey w), Returned).
Proof.
  unfold cleanupMaterializedFactoryView at 1 3 4.
  destruct (viewsMaterialized w !! queryKey) as [view|] eqn:Ek.
  2:{ intros _. cbn [fst]. unfold cleanupMaterializedFactoryView.
      now rewrite Ek. }
  destruct (heap w !! view) as [object|] eqn:Hobj.
  2:{ intros _. cbn [fst]. unfold cleanupMaterializedFactoryView.
      now rewrite Ek, Hobj. }
  destruct (hasSubscribers (removeSubscriptions subscriptionKey object))
    eqn:Hsubs.
  - intros _. cbn [fst]. unfold cleanupMaterializedFactoryView.
    cbn [viewsMaterialized heap set_heap]. rewrite Ek.
    rewrite list_lookup_insert_eq by (eapply lookup_lt_Some; eauto).
    rewrite removeSubscriptions_twice, Hsubs, list_insert_insert_eq.
    reflexivity.
  - destruct (destroy _) as [object2 [|e]]; [|discriminate].
    intros _. cbn [fst]. unfold cleanupMaterializedFactoryView.
    cbn [viewsMaterialized set_viewsMaterialized].
    now rewrite lookup_delete_eq.
Qed.

(** X13. Cleaning up a subscription key that is not registered on the
    view, while the view has subscribers, changes nothing; neither does
    cleaning up under a query key that has no cached view. *)
Theorem cleanup_of_an_unregistered_key_changes_nothing
    (queryKey subscriptionKey : string) w :
  (viewsMaterialized w !! queryKey = None
   \/ exists view object,
        viewsMaterialized w !! queryKey = Some view
        /\ heap w !! view = Some object
        /\ JsMap.has_key subscriptionKey (subscriptions_ object) = false
        /\ hasSubscribers object = true) ->
  cleanupMaterializedFactoryView queryKey subscriptionKey w = (w, Returned).
Proof.
  unfold cleanupMaterializedFactoryView.
  intros [Hnone | (view & object & Hview & Hobj & Habs & Hsubs)].
  - now rewrite Hnone.
  - rewrite Hview, Hobj, (removeSubscriptions_absent _ _ Habs), Hsubs.
    now rewrite (list_insert_id _ _ _ Hobj), set_heap_same.
Qed.


End Cleanup.

(* ===================================================================== *)
(** ** The memoized atom *)
(* ===================================================================== *)

Section Memo.
Context `{Zero}.
Implicit Types (w : World) (object : View) (rs : list Request).

Lemma getMaterializedFactoryView_frame query subscriptions w :
  zeroQueryAtom_cache (fst (getMaterializedFactoryView query subscriptions w))
  = zeroQueryAtom_cache w
  /\ atoms (fst (getMaterializedFactoryView query subscriptions w)) = atoms w.
Proof.
  unfold getMaterializedFactoryView.
  destruct (viewsMaterialized w !! _); [now split |].
  now destruct (materialize _ _).
Qed.

Lemma cleanup_frame queryKey subscriptionKey w :
  zeroQueryAtom_cache
    (fst (cleanupMaterializedFactoryView queryKey subscriptionKey w))
  = zeroQueryAtom_cache w.
Proof.
  unfold cleanupMaterializedFactoryView.
  destruct (viewsMaterialized w !! _); [|reflexivity].
  destruct (heap w !! _); [|reflexivity].
  destruct (hasSubscribers _); [reflexivity |].
  now destruct (destroy _) as [o [|e]].
Qed.

Lemma deliver_frame view e w :
  zeroQueryAtom_cache (perform (Deliver view e) w) = zeroQueryAtom_cache w
  /\ viewsMaterialized (perform (Deliver view e) w) = viewsMaterialized w.
Proof.
  unfold perform. destruct (external e); [|now split].
  destruct (heap w !! view); [|now split].
  now destruct (step e _).
Qed.

Lemma getMaterializedFactoryView_throwing_frame query subscriptions w :
  zeroQueryAtom_cache
    (fst (getMaterializedFactoryView_throwing query subscriptions w))
  = zeroQueryAtom_cache w.
Proof.
  unfold getMaterializedFactoryView_throwing.
  destruct (materialize_calls query subscriptions w) as [done [|e]];
    [|reflexivity].
  pose proof (getMaterializedFactoryView_frame query subscriptions w)
    as [Hframe _].
  now destruct (getMaterializedFactoryView query subscriptions w).
Qed.

(** What [push] leaves when it throws or returns: the subscriptions and
    the teardown are kept, and the calls made are the first of those made
    when every callback returns. *)
Lemma push_throwing_frame now change object :
  subscriptions_ (fst (fst (push_throwing now change object)))
  = subscriptions_ object
  /\ onDestroy_ (fst (fst (push_throwing now change object)))
     = onDestroy_ object
  /\ exists rest,
       snd (push now change object)
       = snd (fst (push_throwing now change object)) ++ rest.
Proof.
  unfold push_throwing. cbn [applyChange_].
  pose proof (until_throw_prefix
                (onData_
                   (set_state
                      (applyChange (data object) change (format_ object),
                       status object) object))) as [rest Hrest].
  destruct (until_throw _) as [done [|e]]; cbn [fst snd] in *.
  - destruct (step_external_frame (now, EvPush change) object eq_refl)
      as [Hsubs Hdestroy].
    split; [exact Hsubs |]. split; [exact Hdestroy |].
    exists []. now rewrite app_nil_r.
  - split; [reflexivity |]. split; [reflexivity |].
    exists rest. now rewrite push_calls.
Qed.

(** On a view whose only subscription is one installed by [zeroQueryAtom]
    with [syncOnData] true, every [push] applies the change and throws out
    of the [onData] call, before the change is queued. *)
Lemma push_throws_on_a_synced_view now change object k stateAtom
    onAdd onRemove onUpdate :
  subscriptions_ object
  = [(k, mkSubscriptions k (Some (SyncStateAtom stateAtom true))
           onAdd onRemove onUpdate)] ->
  push_throwing now change object
  = (fst (applyChange_ change object),
     [CallData k (SyncStateAtom stateAtom true)
        (applyChange (data object) change (format_ object), status object)],
     Threw atom_not_writable)
  /\ consolidatedCallbacks_ (fst (applyChange_ change object))
     = consolidatedCallbacks_ object.
Proof.
  intros Hsubs. split; [|reflexivity].
  unfold push_throwing. cbn [applyChange_]. unfold onData_.
  cbn [subscriptions_ set_state]. rewrite Hsubs. reflexivity.
Qed.

Lemma happen_frame view e w :
  zeroQueryAtom_cache (serve (Happen view e) w) = zeroQueryAtom_cache w
  /\ viewsMaterialized (serve (Happen view e) w) = viewsMaterialized w.
Proof.
  destruct e as [now [change | | opts | k]]; cbn [serve];
    try apply deliver_frame.
  destruct (heap w !! view); [|now split].
  now destruct (push_throwing now change _) as [[object1 calls] outcome].
Qed.

Lemma serve_keeps_cache r w (k : string) (result : QueryAtom) :
  zeroQueryAtom_cache w !! k = Some result ->
  zeroQueryAtom_cache (serve r w) !! k = Some result.
Proof.
  intros Hk. destruct r as [query subscriptions syncOnData | res queryKey | view e].
  - cbn [serve]. unfold zeroQueryAtom.
    destruct (zeroQueryAtom_cache w !! getClientQueryKey query) eqn:Hc;
      [exact Hk |].
    match goal with
    | |- context [getMaterializedFactoryView_throwing ?q ?s ?w0] =>
        pose proof (getMaterializedFactoryView_throwing_frame q s w0) as Hframe;
        destruct (getMaterializedFactoryView_throwing q s w0) as [w1 [e|view]]
    end; simpl in Hframe |- *.
    + now rewrite Hframe.
    + rewrite lookup_insert_ne by congruence. now rewrite Hframe.
  - cbn [serve]. unfold cleanup. now rewrite cleanup_frame.
  - now destruct (happen_frame view e w) as [-> _].
Qed.

Lemma serve_all_keeps_cache rs : forall w (k : string) (result : QueryAtom),
  zeroQueryAtom_cache w !! k = Some result ->
  zeroQueryAtom_cache (serve_all rs w) !! k = Some result.
Proof.
  induction rs as [|r rs IH]; intros w k result Hk; [exact Hk |].
  apply (IH (serve r w)). now apply serve_keeps_cache.
Qed.

(** X15. The cache of [zeroQueryAtom] never forgets: once an invocation
    for a query has returned, whatever is invoked, cleaned up or delivered
    afterwards (including the destruction of its view), a later invocation
    for that query returns the object the first one returned and changes
    nothing, whatever subscriptions it is given. *)
Theorem memoized_result_is_returned_ever_after
    w w1 (query : Query) (s1 s2 : ChangeFactorySubscriptions) (b1 b2 : bool)
    (result : QueryAtom) rs :
  zeroQueryAtom query s1 b1 w = (w1, inr result) ->
  zeroQueryAtom query s2 b2 (serve_all rs w1)
  = (serve_all rs w1, inr result).
Proof.
  intros Hfirst.
  eapply zeroQueryAtom_cached, serve_all_keeps_cache,
    zeroQueryAtom_caches_result, Hfirst.
Qed.

(** X16. The first invocation of [zeroQueryAtom] for a query creates one
    atom. When [syncOnData] is false or the result of the query is empty,
    it materializes one view, caches it under the query key, and registers
    exactly one subscription on it: the caller's key with the caller's
    [onAdd], [onRemove] and [onUpdate], and as [onData] the closure that
    writes the new atom, in place of any [onData] the caller passed; the
    returned object, which is memoized, carries the new atom, the query key
    and a [cleanup] for the caller's key. When [syncOnData] is true and the
    result has a row, the invocation throws "atom not writable" out of the
    first [onData] call: no view is cached and nothing is memoized. *)
Theorem first_invocation_registers_the_caller
    w (query : Query) (subscriptions : ChangeFactorySubscriptions)
    (syncOnData : bool) :
  covered w ->
  zeroQueryAtom_cache w !! getClientQueryKey query = None ->
  let invoked := zeroQueryAtom query subscriptions syncOnData w in
  let w1 := fst invoked in
  let result :=
    mkQueryAtom (atoms w) (getClientQueryKey query) (key subscriptions)
      (length (heap w)) in
  atoms w1 = S (atoms w)
  /\ (syncOnData = false \/ fetch (query_input query) = [] ->
      snd invoked = inr result
      /\ viewsMaterialized w1 !! getClientQueryKey query
         = Some (length (heap w))
      /\ subscriptions_ <$> heap w1 !! length (heap w)
         = Some [(key subscriptions,
                  mkSubscriptions (key subscriptions)
                    (Some (SyncStateAtom (atoms w) syncOnData))
                    (onAdd subscriptions) (onRemove subscriptions)
                    (onUpdate subscriptions))]
      /\ zeroQueryAtom_cache w1 !! getClientQueryKey query = Some result)
  /\ (syncOnData = true -> fetch (query_input query) <> [] ->
      snd invoked = inl atom_not_writable
      /\ viewsMaterialized w1 = viewsMaterialized w
      /\ zeroQueryAtom_cache w1 = zeroQueryAtom_cache w
      /\ heap w1 = heap w
      /\ exists data,
           trace w1
           = trace w ++ [Called (CallData (key subscriptions)
                                   (SyncStateAtom (atoms w) true) data)]).
Proof.
  intros Hcov Hmiss. cbv zeta.
  destruct (zeroQueryAtom_covered w query subscriptions syncOnData Hcov)
    as [_ Hview].
  specialize (Hview Hmiss).
  split; [|split].
  - unfold zeroQueryAtom. rewrite Hmiss.
    unfold getMaterializedFactoryView_throwing.
    destruct (materialize_calls _ _ _) as [done [|e]]; [|reflexivity].
    match goal with
    | |- context [getMaterializedFactoryView ?q ?s ?w0] =>
        pose proof (getMaterializedFactoryView_frame q s w0) as [_ Hatoms];
        destruct (getMaterializedFactoryView q s w0) as [w1 view]
    end.
    exact Hatoms.
  - intros Hquiet.
    destruct (invoke_fresh w query subscriptions syncOnData Hmiss Hview Hquiet)
      as (object & calls & Hsubs & _ & ->).
    cbn [fst snd heap viewsMaterialized zeroQueryAtom_cache].
    split; [reflexivity |].
    split; [apply lookup_insert_eq |].
    split; [|apply lookup_insert_eq].
    rewrite lookup_app_r, Nat.sub_diag by lia. cbn. now rewrite Hsubs.
  - intros -> Hrows.
    destruct (fetch (query_input query)) as [|node rest] eqn:Hfetch;
      [contradiction |].
    destruct (invoke_throws w query subscriptions node rest Hmiss Hview Hfetch)
      as [data ->].
    cbn [fst snd]. repeat (split; [reflexivity |]). now exists data.
Qed.

Lemma internal_set k c (m : JsMap.t ChangeFactorySubscriptions) :
  onData_is_internal c = true ->
  Forall (fun e => onData_is_internal (snd e) = true) m ->
  Forall (fun e => onData_is_internal (snd e) = true) (JsMap.set k c m).
Proof.
  intros Hc. induction m as [|[k' c'] m IH]; simpl; intros Hm.
  - now constructor.
  - apply Forall_cons in Hm as [Hc' Hm].
    destruct (String.eqb k k'); constructor; auto.
Qed.

Lemma internal_delete k (m : JsMap.t ChangeFactorySubscriptions) :
  Forall (fun e => onData_is_internal (snd e) = true) m ->
  Forall (fun e => onData_is_internal (snd e) = true) (JsMap.delete k m).
Proof.
  induction m as [|[k' c'] m IH]; simpl; intros Hm; [constructor |].
  apply Forall_cons in Hm as [Hc' Hm].
  destruct (String.eqb k k'); [auto | constructor; auto].
Qed.

Lemma internal_onData_calls object :
  Forall (fun e => onData_is_internal (snd e) = true) (subscriptions_ object) ->
  no_user_onData_called (map Called (onData_ object)) = true.
Proof.
  unfold onData_, JsMap.values, no_user_onData_called.
  induction (subscriptions_ object) as [|[k c] m IH]; simpl; intros Hm;
    [reflexivity |].
  apply Forall_cons in Hm as [Hc Hm]. rewrite map_app, forallb_app, (IH Hm).
  simpl in Hc. unfold onData_is_internal in Hc.
  destruct (onData c) as [[fn|atom b]|]; simpl; (reflexivity || discriminate).
Qed.

Lemma row_calls_are_no_user_onData (calls : list Call) :
  forallb is_row_call calls = true ->
  no_user_onData_called (map Called calls) = true.
Proof.
  unfold no_user_onData_called.
  induction calls as [|c calls IH]; simpl; [reflexivity |].
  intros Hc. apply andb_true_iff in Hc as [Hc Hcalls].
  rewrite (IH Hcalls). now destruct c.
Qed.

Lemma internal_step e object :
  external e = true ->
  Forall (fun e => onData_is_internal (snd e) = true) (subscriptions_ object) ->
  no_user_onData_called (map Called (snd (step e object))) = true.
Proof.
  intros He Hm. destruct e as [now [change | | opts | k]]; simpl in He;
    try discriminate; cbn [step].
  - rewrite push_calls. now apply internal_onData_calls.
  - apply row_calls_are_no_user_onData, timerFired_all_row_calls.
Qed.

Lemma internal_applyFetched nodes : forall object,
  Forall (fun e => onData_is_internal (snd e) = true) (subscriptions_ object) ->
  no_user_onData_called (map Called (snd (applyFetched nodes object))) = true.
Proof.
  induction nodes as [|node rest IH]; intros object Hm; [reflexivity |].
  simpl. specialize (IH (fst (applyChange_ (Add node) object)) Hm).
  destruct (applyFetched rest _) as [o2 c2]. simpl in IH |- *.
  unfold no_user_onData_called in *. rewrite map_app, forallb_app, IH.
  rewrite andb_true_r.
  now apply (internal_onData_calls (fst (applyChange_ (Add node) object))).
Qed.

Lemma internal_new input format onDestroy queryComplete subscriptions :
  onData_is_internal subscriptions = true ->
  no_user_onData_called
    (map Called
       (snd (new input format onDestroy queryComplete subscriptions))) = true
  /\ Forall (fun e => onData_is_internal (snd e) = true)
       (subscriptions_
          (fst (new input format onDestroy queryComplete subscriptions))).
Proof.
  intros Hs.
  destruct (new_frame input format onDestroy queryComplete subscriptions)
    as [Hsubs _].
  rewrite Hsubs. split; [|now repeat constructor].
  unfold new.
  match goal with
  | |- context [applyFetched ?ns ?v] =>
      pose proof (internal_applyFetched ns v) as Hcalls;
      destruct (applyFetched ns v) as [o1 calls]
  end.
  apply Hcalls. simpl. now repeat constructor.
Qed.

Lemma internal_getMaterializedFactoryView query subscriptions w :
  onData_is_internal subscriptions = true ->
  internal_onData_only w -> no_user_onData_called (trace w) = true ->
  internal_onData_only (fst (getMaterializedFactoryView query subscriptions w))
  /\ no_user_onData_called
       (trace (fst (getMaterializedFactoryView query subscriptions w))) = true.
Proof.
  intros Hs Hheap Htrace. unfold getMaterializedFactoryView.
  destruct (viewsMaterialized w !! _) as [view|].
  - split; [|exact Htrace]. unfold internal_onData_only. simpl.
    apply Forall_alter; [exact Hheap |].
    intros object _ Hobj. now apply internal_set.
  - unfold materialize, zeroChangeListenerFactory.
    match goal with
    | |- context [new ?i ?f ?d ?c ?s] =>
        pose proof (internal_new i f d c s Hs) as [Hcalls Hsubs];
        destruct (new i f d c s) as [object calls]
    end.
    simpl in Hcalls, Hsubs. split.
    + unfold internal_onData_only. simpl.
      apply Forall_app_2; [exact Hheap | now constructor].
    + unfold no_user_onData_called in *. simpl.
      now rewrite forallb_app, Htrace; simpl.
Qed.

Lemma internal_getMaterializedFactoryView_throwing query subscriptions w :
  onData_is_internal subscriptions = true ->
  internal_onData_only w -> no_user_onData_called (trace w) = true ->
  internal_onData_only
    (fst (getMaterializedFactoryView_throwing query subscriptions w))
  /\ no_user_onData_called
       (trace (fst (getMaterializedFactoryView_throwing query subscriptions w)))
     = true.
Proof.
  intros Hs Hheap Htrace.
  unfold getMaterializedFactoryView_throwing, materialize_calls.
  destruct (viewsMaterialized w !! getClientQueryKey query) as [view|] eqn:Hv.
  - pose proof (internal_getMaterializedFactoryView query subscriptions w
                  Hs Hheap Htrace) as Hkept.
    now destruct (getMaterializedFactoryView query subscriptions w).
  - unfold materialize, zeroChangeListenerFactory.
    match goal with
    | |- context [until_throw ?calls] =>
        pose proof (until_throw_prefix calls) as [rest Hrest];
        destruct (until_throw calls) as [done [|e]]
    end.
    + pose proof (internal_getMaterializedFactoryView query subscriptions w
                    Hs Hheap Htrace) as Hkept.
      now destruct (getMaterializedFactoryView query subscriptions w).
    + split; [exact Hheap |].
      destruct (internal_new (query_input query) (Some (query_format query))
                  (query_onDestroy query) (query_queryComplete query)
                  subscriptions Hs) as [Hcalls _].
      rewrite Hrest in Hcalls. cbn [fst] in Hcalls.
      unfold no_user_onData_called in *. simpl.
      rewrite map_app, forallb_app in Hcalls.
      apply andb_true_iff in Hcalls as [Hcalls _].
      now rewrite forallb_app, Htrace, Hcalls.
Qed.

Lemma internal_serve r w :
  internal_onData_only w -> no_user_onData_called (trace w) = true ->
  internal_onData_only (serve r w)
  /\ no_user_onData_called (trace (serve r w)) = true.
Proof.
  intros Hheap Htrace.
  destruct r as [query subscriptions syncOnData | res queryKey | view e];
    cbn [serve].
  - unfold zeroQueryAtom.
    destruct (zeroQueryAtom_cache w !! _); [now split |].
    match goal with
    | |- context [getMaterializedFactoryView_throwing ?q ?s ?w0] =>
        destruct (internal_getMaterializedFactoryView_throwing q s w0 eq_refl
                    Hheap Htrace) as [Hh Ht];
        destruct (getMaterializedFactoryView_throwing q s w0) as [w1 [e|view]]
    end; now split.
  - unfold cleanup, cleanupMaterializedFactoryView.
    destruct (viewsMaterialized w !! _) as [view|]; [|now split].
    destruct (heap w !! view) as [object|] eqn:Hobj; [|now split].
    pose proof (Forall_lookup_1 _ _ _ _ Hheap Hobj) as Hsubs.
    destruct (hasSubscribers _).
    + split; [|exact Htrace]. unfold internal_onData_only. simpl.
      apply Forall_insert; [exact Hheap |]. now apply internal_delete.
    + assert (Hempty :
        subscriptions_
          (fst (destroy (removeSubscriptions (cleanup_subscriptionKey res)
                           object))) = []).
      { unfold destroy.
        destruct (onDestroy_ _) as [[message|payload]|];
          [destruct (JsString.includes _ message)| |]; reflexivity. }
      destruct (destroy _) as [object2 outcome]. simpl in Hempty.
      assert (Hh : Forall
                (fun o => Forall (fun e => onData_is_internal (snd e) = true)
                            (subscriptions_ o))
                (<[view := object2]> (heap w))).
      { apply Forall_insert; [exact Hheap |]. rewrite Hempty. constructor. }
      assert (Ht : no_user_onData_called (trace w ++ [TornDown view]) = true).
      { unfold no_user_onData_called in *.
        now rewrite forallb_app, Htrace. }
      destruct outcome; now split.
  - destruct (heap w !! view) as [object|] eqn:Hobj;
      [|destruct e as [now [change | | opts | k]]; cbn [serve perform external];
        rewrite ?Hobj; now split].
    pose proof (Forall_lookup_1 _ _ _ _ Hheap Hobj) as Hsubs.
    destruct e as [now [change | | opts | k]]; cbn [serve perform external];
      rewrite ?Hobj; try now split.
    + pose proof (internal_step (now, EvPush change) object eq_refl Hsubs)
        as Hcalls.
      destruct (push_throwing_frame now change object)
        as (Hframe & _ & rest & Hrest).
      cbn [step] in Hcalls. rewrite Hrest in Hcalls.
      destruct (push_throwing now change object) as [[object1 calls] outcome].
      cbn [fst snd] in *. split.
      * unfold internal_onData_only. simpl.
        apply Forall_insert; [exact Hheap |]. now rewrite Hframe.
      * unfold no_user_onData_called in *. simpl.
        rewrite map_app, forallb_app in Hcalls.
        apply andb_true_iff in Hcalls as [Hcalls _].
        now rewrite forallb_app, Htrace, Hcalls.
    + pose proof (internal_step (now, EvTimer) object eq_refl Hsubs) as Hcalls.
      destruct (step_external_frame (now, EvTimer) object eq_refl)
        as [Hframe _].
      destruct (step (now, EvTimer) object) as [object1 calls].
      simpl in Hcalls, Hframe. split.
      * unfold internal_onData_only. simpl.
        apply Forall_insert; [exact Hheap |]. now rewrite Hframe.
      * unfold no_user_onData_called in *. simpl.
        now rewrite forallb_app, Htrace, Hcalls.
Qed.

(** X17. An [onData] callback passed to [zeroQueryAtom] is never invoked:
    whatever is invoked, cleaned up and delivered, starting from the
    freshly loaded module, no invocation of a caller-supplied [onData]
    occurs. *)
Theorem caller_onData_is_never_invoked rs :
  no_user_onData_called (trace (serve_all rs initial)) = true.
Proof.
  assert (Hgen : forall w,
            internal_onData_only w -> no_user_onData_called (trace w) = true ->
            no_user_onData_called (trace (serve_all rs w)) = true).
  { induction rs as [|r rs IH]; intros w Hheap Htrace; [exact Htrace |].
    destruct (internal_serve r w Hheap Htrace) as [Hh Ht].
    now apply (IH (serve r w)). }
  apply Hgen; [constructor | reflexivity].
Qed.

Lemma size_delete {V} k (m : JsMap.t V) :
  JsMap.size (JsMap.delete k m) <= JsMap.size m.
Proof.
  unfold JsMap.size. induction m as [|[k' v] m IH]; simpl; [lia |].
  destruct (String.eqb k k'); simpl; lia.
Qed.

Lemma single_invoke query subscriptions syncOnData w :
  covered w -> at_most_one_subscriber w ->
  at_most_one_subscriber (fst (zeroQueryAtom query subscriptions syncOnData w)).
Proof.
  intros Hcov Hone.
  destruct (zeroQueryAtom_covered w query subscriptions syncOnData Hcov)
    as [_ Hview].
  unfold zeroQueryAtom.
  destruct (zeroQueryAtom_cache w !! getClientQueryKey query) eqn:Hc;
    [exact Hone |].
  specialize (Hview eq_refl).
  unfold getMaterializedFactoryView_throwing, materialize_calls,
    getMaterializedFactoryView.
  cbn [viewsMaterialized set_atoms].
  rewrite Hview. unfold materialize, zeroChangeListenerFactory.
  destruct (until_throw _) as [done [|e]]; [|exact Hone].
  match goal with
  | |- context [new ?i ?f ?d ?c ?s] =>
      pose proof (new_frame i f d c s) as [Hsubs _];
      destruct (new i f d c s) as [object calls]
  end.
  simpl in Hsubs. intros k view. simpl.
  destruct (String.eqb_spec (getClientQueryKey query) k) as [<-|Hk].
  - rewrite lookup_insert_eq. intros Heq. injection Heq as <-.
    exists object. rewrite lookup_app_r, Nat.sub_diag by lia.
    split; [reflexivity |]. rewrite Hsubs. simpl. lia.
  - rewrite lookup_insert_ne by assumption. intros Hcached.
    destruct (Hone k view Hcached) as (o & Ho & Hsize).
    exists o. split; [|exact Hsize].
    rewrite lookup_app_l; [exact Ho | eapply lookup_lt_Some; eauto].
Qed.

Lemma single_cleanup queryKey subscriptionKey w :
  at_most_one_subscriber w ->
  at_most_one_subscriber
    (fst (cleanupMaterializedFactoryView queryKey subscriptionKey w)).
Proof.
  intros Hone. unfold cleanupMaterializedFactoryView.
  destruct (viewsMaterialized w !! queryKey) as [view|] eqn:Ek; [|exact Hone].
  destruct (heap w !! view) as [object|] eqn:Hobj; [|exact Hone].
  destruct (Hone queryKey view Ek) as (o & Ho & Hsize).
  assert (o = object) by congruence. subst o.
  assert (Hreplace : forall object',
            JsMap.size (subscriptions_ object') <= 1 ->
            forall k view',
              viewsMaterialized w !! k = Some view' ->
              exists o,
                <[view := object']> (heap w) !! view' = Some o
                /\ JsMap.size (subscriptions_ o) <= 1).
  { intros object' Hsize' k view' Hcached.
    destruct (Nat.eq_dec view view') as [<-|Hne].
    - exists object'. split; [|exact Hsize'].
      apply list_lookup_insert_eq. eapply lookup_lt_Some; eauto.
    - destruct (Hone k view' Hcached) as (o & Ho' & Hsize'').
      exists o. now rewrite list_lookup_insert_ne. }
  destruct (hasSubscribers _).
  - intros k view'. simpl. apply Hreplace.
    unfold removeSubscriptions; simpl.
    etransitivity; [apply size_delete | exact Hsize].
  - assert (Hempty :
      subscriptions_
        (fst (destroy (removeSubscriptions subscriptionKey object))) = []).
    { unfold destroy.
      destruct (onDestroy_ _) as [[message|payload]|];
        [destruct (JsString.includes _ message)| |]; reflexivity. }
    destruct (destroy _) as [object2 outcome]. simpl in Hempty.
    assert (Hsize2 : JsMap.size (subscriptions_ object2) <= 1)
      by (rewrite Hempty; simpl; lia).
    destruct outcome; intros k view'; simpl.
    + rewrite lookup_delete_Some. intros [_ Hcached].
      now apply (Hreplace object2 Hsize2 k).
    + now apply (Hreplace object2 Hsize2 k).
Qed.

Lemma single_replace view object object1 w :
  at_most_one_subscriber w ->
  heap w !! view = Some object ->
  subscriptions_ object1 = subscriptions_ object ->
  forall k view',
    viewsMaterialized w !! k = Some view' ->
    exists o,
      <[view := object1]> (heap w) !! view' = Some o
      /\ JsMap.size (subscriptions_ o) <= 1.
Proof.
  intros Hone Hobj Hframe k view' Hcached.
  destruct (Hone k view' Hcached) as (o & Ho & Hsize).
  destruct (Nat.eq_dec view view') as [<-|Hne].
  - exists object1.
    rewrite list_lookup_insert_eq by (eapply lookup_lt_Some; eauto).
    split; [reflexivity |]. rewrite Hframe.
    assert (o = object) by congruence. now subst o.
  - exists o. now rewrite list_lookup_insert_ne.
Qed.

Lemma single_happen view e w :
  at_most_one_subscriber w ->
  at_most_one_subscriber (serve (Happen view e) w).
Proof.
  intros Hone.
  destruct (heap w !! view) as [object|] eqn:Hobj;
    [|destruct e as [now [change | | opts | k]]; cbn [serve perform external];
      rewrite ?Hobj; exact Hone].
  destruct e as [now [change | | opts | k]]; cbn [serve perform external];
    rewrite ?Hobj; try exact Hone.
  - destruct (push_throwing_frame now change object) as (Hframe & _ & _).
    destruct (push_throwing now change object) as [[object1 calls] outcome].
    cbn [fst snd] in Hframe. intros k view' Hcached.
    now apply (single_replace view object object1 w Hone Hobj Hframe k).
  - destruct (step_external_frame (now, EvTimer) object eq_refl)
      as [Hframe _].
    destruct (step (now, EvTimer) object) as [object1 calls].
    cbn [fst] in Hframe. intros k view' Hcached.
    now apply (single_replace view object object1 w Hone Hobj Hframe k).
Qed.

Lemma single_serve_all rs : forall w,
  covered w -> at_most_one_subscriber w ->
  covered (serve_all rs w) /\ at_most_one_subscriber (serve_all rs w).
Proof.
  induction rs as [|r rs IH]; intros w Hcov Hone; [now split |].
  apply (IH (serve r w)).
  - destruct r as [query subscriptions syncOnData | res queryKey | view e].
    + now apply zeroQueryAtom_covered.
    + now apply cleanup_covered.
    + intros k. destruct (happen_frame view e w) as [-> ->]. apply Hcov.
  - destruct r as [query subscriptions syncOnData | res queryKey | view e].
    + now apply single_invoke.
    + now apply single_cleanup.
    + now apply single_happen.
Qed.

(** X18. Through [zeroQueryAtom] and the [cleanup] closures no view ever
    has more than one subscription: starting from the freshly loaded
    module, whatever is invoked, cleaned up and delivered, every cached
    view exists and carries at most one subscription key. *)
Theorem cached_views_have_at_most_one_subscriber rs (k : string) :
  match viewsMaterialized (serve_all rs initial) !! k with
  | Some view =>
      exists object,
        heap (serve_all rs initial) !! view = Some object
        /\ JsMap.size (subscriptions_ object) <= 1
  | None => True
  end.
Proof.
  destruct (single_serve_all rs initial) as [_ Hone].
  - apply covered_initial.
  - intros k' view Hcached. simpl in Hcached.
    now rewrite lookup_empty in Hcached.
  - destruct (viewsMaterialized (serve_all rs initial) !! k) as [view|] eqn:Ek;
      [|exact I].
    now apply (Hone k).
Qed.

End Memo.

(* ===================================================================== *)
(** ** The hook over several renders *)
(* ===================================================================== *)

Section Renders.
Context `{Zero}.
Implicit Types (w : World) (object : View).

Lemma last_key_leaves_no_subscriber k object :
  JsMap.keys (subscriptions_ object) = [k] ->
  hasSubscribers (removeSubscriptions k object) = false.
Proof.
  intros Hkeys. rewrite hasSubscribers_keys.
  unfold removeSubscriptions; simpl. rewrite keys_delete, Hkeys. simpl.
  now rewrite String.eqb_refl.
Qed.

(** X19. Rendering again with an unchanged query costs nothing: after a
    component has mounted without its render throwing, a render with a
    query of the same hash (with any subscriptions) materializes nothing,
    cleans nothing up, and leaves the module state and the component's refs
    as they were. *)
Theorem rerender_with_the_same_query_changes_nothing
    w (q q' : Query) (s s' : ChangeFactorySubscriptions) :
  hash q' = hash q ->
  let mounted := useZeroQueryAtom q s None w in
  snd mounted = Returned ->
  useZeroQueryAtom q' s' (snd (fst mounted)) (fst (fst mounted))
  = (fst (fst mounted), snd (fst mounted), Returned)
  /\ is_Some (snd (fst mounted))
  /\ fst (fst mounted) = fst (zeroQueryAtom q s true w).
Proof.
  intros Hhash. cbv zeta.
  assert (Hkey : getClientQueryKey q' = getClientQueryKey q)
    by (unfold getClientQueryKey; now rewrite Hhash).
  destruct (zeroQueryAtom q s true w) as [w1 [e|r]] eqn:Hfirst.
  { unfold useZeroQueryAtom. rewrite Hfirst. discriminate. }
  assert (Hmount : useZeroQueryAtom q s None w
                   = (w1, Some (mkComponent (queryKey r) (queryKey r)),
                      Returned)).
  { unfold useZeroQueryAtom, effect. rewrite Hfirst.
    now rewrite String.eqb_refl. }
  rewrite Hmount. cbn [fst snd]. intros _.
  split; [|split; [eauto | reflexivity]].
  assert (Hsecond : zeroQueryAtom q' s' true w1 = (w1, inr r)).
  { apply zeroQueryAtom_cached. rewrite Hkey.
    exact (zeroQueryAtom_caches_result q s true w w1 r Hfirst). }
  unfold useZeroQueryAtom. rewrite Hsecond. cbn [deps previousQueryKey].
  now rewrite String.eqb_refl.
Qed.

(** X20. Switching a component from one query to another and back leaves
    it without a live view: starting from the freshly loaded module, with
    two queries whose results are empty when they are materialized, after
    renders with [qa], [qb] and [qa] again, no render has thrown, both
    views have been torn down and removed from the cache, nothing is
    materialized anew, and the object memoized for [qa] still refers to the
    first, subscriber-less view. *)
Theorem switching_back_leaves_no_live_view
    (qa qb : Query) (s : ChangeFactorySubscriptions) :
  hash qa <> hash qb ->
  fetch (query_input qa) = [] ->
  fetch (query_input qb) = [] ->
  teardown_swallowed (query_onDestroy qa) = true ->
  teardown_swallowed (query_onDestroy qb) = true ->
  let r1 := useZeroQueryAtom qa s None initial in
  let r2 := useZeroQueryAtom qb s (snd (fst r1)) (fst (fst r1)) in
  let r3 := useZeroQueryAtom qa s (snd (fst r2)) (fst (fst r2)) in
  let w := fst (fst r3) in
  snd r1 = Returned
  /\ snd r2 = Returned
  /\ snd r3 = Returned
  /\ viewsMaterialized w !! getClientQueryKey qa = None
  /\ viewsMaterialized w !! getClientQueryKey qb = None
  /\ torn_down 0 w = true
  /\ torn_down 1 w = true
  /\ length (heap w) = 2
  /\ zeroQueryAtom_cache w !! getClientQueryKey qa
     = Some (mkQueryAtom 0 (getClientQueryKey qa) (key s) 0)
  /\ hasSubscribers <$> heap w !! 0 = Some false
  /\ previousQueryKey <$> snd (fst r3) = Some (getClientQueryKey qa).
Proof.
  intros Hhash Hea Heb Hswa Hswb. cbv zeta.
  set (ka := getClientQueryKey qa). set (kb := getClientQueryKey qb).
  assert (Hne : ka <> kb).
  { unfold ka, kb. intros Heq. apply Hhash.
    unfold getClientQueryKey in Heq. now apply append_cancel_r in Heq. }
  assert (Hab : String.eqb ka kb = false) by now apply String.eqb_neq.
  assert (Hba : String.eqb kb ka = false)
    by (apply String.eqb_neq; congruence).
  (* first render: the view of [qa] is materialized *)
  destruct (invoke_fresh initial qa s true) as (oa & ca & Hsa & Hda & Ea);
    [apply lookup_empty | apply lookup_empty | now right |].
  assert (Hka : JsMap.keys (subscriptions_ oa) = [key s])
    by now rewrite Hsa.
  fold ka in Ea. cbn [heap initial app length atoms viewsMaterialized
                      zeroQueryAtom_cache trace] in Ea.
  set (w1 := mkWorld [oa] (<[ka := 0]> ∅)
               (<[ka := mkQueryAtom 0 ka (key s) 0]> ∅) 1
               (Materialized ka 0 :: map Called ca)) in *.
  assert (Ea' : zeroQueryAtom qa s true initial
                = (w1, inr (mkQueryAtom 0 ka (key s) 0))) by exact Ea.
  clear Ea.
  assert (H1 : useZeroQueryAtom qa s None initial
               = (w1, Some (mkComponent ka ka), Returned)).
  { unfold useZeroQueryAtom. rewrite Ea'. unfold effect.
    cbn [queryKey]. now rewrite String.eqb_refl. }
  rewrite H1. cbn [fst snd].
  (* second render: the view of [qb] is materialized, that of [qa] released *)
  destruct (invoke_fresh w1 qb s true) as (ob & cb & Hsb & Hdb & Eb).
  { fold kb. cbn. now rewrite lookup_insert_ne, lookup_empty. }
  { fold kb. cbn. now rewrite lookup_insert_ne, lookup_empty. }
  { now right. }
  assert (Hkb : JsMap.keys (subscriptions_ ob) = [key s])
    by now rewrite Hsb.
  fold kb in Eb. cbn [heap w1 app length atoms viewsMaterialized
                      zeroQueryAtom_cache trace] in Eb.
  set (w2 := mkWorld [oa; ob] (<[kb := 1]> (<[ka := 0]> ∅))
               (<[kb := mkQueryAtom 1 kb (key s) 1]>
                  (<[ka := mkQueryAtom 0 ka (key s) 0]> ∅)) 2
               ((Materialized ka 0 :: map Called ca)
                ++ Materialized kb 1 :: map Called cb)) in *.
  assert (Eb' : zeroQueryAtom qb s true w1
                = (w2, inr (mkQueryAtom 1 kb (key s) 1))) by exact Eb.
  clear Eb.
  destruct (cleanup_of_the_last_key w2 ka (key s) 0 oa)
    as (oa' & Ec & Hoa').
  { cbn. now rewrite lookup_insert_ne, lookup_insert_eq by congruence. }
  { reflexivity. }
  { now apply last_key_leaves_no_subscriber. }
  { now rewrite Hda. }
  set (w3 := set_viewsMaterialized (delete ka (viewsMaterialized w2))
               (emit [TornDown 0] (set_heap (<[0 := oa']> (heap w2)) w2))) in *.
  assert (H2 : useZeroQueryAtom qb s (Some (mkComponent ka ka)) w1
               = (w3, Some (mkComponent kb kb), Returned)).
  { unfold useZeroQueryAtom. rewrite Eb'.
    cbn [deps previousQueryKey queryKey]. rewrite Hab. cbn [negb].
    unfold effect. cbn [queryKey]. rewrite Hab. cbn [negb].
    unfold cleanup. cbn [cleanup_subscriptionKey]. now rewrite Ec. }
  rewrite H2. cbn [fst snd].
  (* third render: the memoized object is returned, the view of [qb] released *)
  assert (Ehit : zeroQueryAtom qa s true w3
                 = (w3, inr (mkQueryAtom 0 ka (key s) 0))).
  { apply zeroQueryAtom_cached. fold ka. cbn.
    now rewrite lookup_insert_ne, lookup_insert_eq by congruence. }
  destruct (cleanup_of_the_last_key w3 kb (key s) 1 ob)
    as (ob' & Ed & Hob').
  { cbn. rewrite lookup_delete_ne by congruence. apply lookup_insert_eq. }
  { reflexivity. }
  { now apply last_key_leaves_no_subscriber. }
  { now rewrite Hdb. }
  set (w4 := set_viewsMaterialized (delete kb (viewsMaterialized w3))
               (emit [TornDown 1] (set_heap (<[1 := ob']> (heap w3)) w3))) in *.
  assert (H3 : useZeroQueryAtom qa s (Some (mkComponent kb kb)) w3
               = (w4, Some (mkComponent ka ka), Returned)).
  { unfold useZeroQueryAtom. rewrite Ehit.
    cbn [deps previousQueryKey queryKey]. rewrite Hba. cbn [negb].
    unfold effect. cbn [queryKey]. rewrite Hba. cbn [negb].
    unfold cleanup. cbn [cleanup_subscriptionKey]. now rewrite Ed. }
  rewrite H3. cbn [fst snd previousQueryKey].
  do 3 (split; [reflexivity |]).
  split; [cbn; rewrite lookup_delete_ne by congruence; apply lookup_delete_eq |].
  split; [cbn; apply lookup_delete_eq |].
  split; [unfold torn_down; cbn; rewrite !existsb_app; simpl;
          now rewrite !orb_true_r |].
  split; [unfold torn_down; cbn; rewrite !existsb_app; simpl;
          now rewrite !orb_true_r |].
  split; [reflexivity |].
  split; [cbn; now rewrite lookup_insert_ne, lookup_insert_eq by congruence |].
  split; [cbn; unfold hasSubscribers; now rewrite Hoa' |].
  reflexivity.
Qed.

End Renders.

(* ===================================================================== *)
(** ** The client's user id *)
(* ===================================================================== *)

Section ClientFacts.
Variable decodeJwt : string -> Thrown + JWTPayload.

(** X21. The user id of the client is never falsy and follows the
    cookie. Without a cookie it is ["anon"]. With an empty cookie it is
    the function [String.prototype.sub], read off the empty string. With a
    non-empty cookie it is the [sub] claim of the decoded token, whatever
    its type, when that claim is truthy, and ["anon"] otherwise. The token
    is decoded only when the cookie is non-empty, and module evaluation
    fails exactly with the error the decoder throws. *)
Theorem userID_is_truthy_and_follows_the_cookie (encodedJWT : option string) :
  match userID decodeJwt encodedJWT with
  | inr u =>
      member_truthy (Some u) = true
      /\ match encodedJWT with
         | None => u = Json (VStr "anon")
         | Some token =>
             if String.eqb token "" then u = StringPrototypeSub
             else exists payload,
                    decodeJwt token = inr payload
                    /\ u = match sub payload with
                           | Some v => if truthy (Some v) then Json v
                                       else Json (VStr "anon")
                           | None => Json (VStr "anon")
                           end
         end
  | inl e =>
      exists token,
        encodedJWT = Some token /\ token <> "" /\ decodeJwt token = inl e
  end.
Proof.
  unfold userID, decodedJWT.
  destruct encodedJWT as [token|]; [|now split].
  destruct (String.eqb_spec token "") as [->|Htoken]; [now split |].
  destruct (decodeJwt token) as [e|payload] eqn:Hdecode; [now exists token |].
  cbn [decoded_sub]. destruct (sub payload) as [v|] eqn:Hsub; cbn [fmap option_fmap option_map].
  - cbn [member_truthy]. destruct (truthy (Some v)) eqn:Hv.
    + split; [exact Hv |]. exists payload. now rewrite Hsub, Hv.
    + split; [reflexivity |]. exists payload. now rewrite Hsub, Hv.
  - split; [reflexivity |]. exists payload. now rewrite Hsub.
Qed.

(** An empty cookie makes the user id a function, not ["anon"]. *)
Lemma empty_cookie_gives_a_function :
  userID decodeJwt (Some "") = inr StringPrototypeSub.
Proof. reflexivity. Qed.

End ClientFacts.

(* ===================================================================== *)
(** ** Further properties at concrete inputs *)
(* ===================================================================== *)

Section MoreExamples.
#[local] Existing Instance Sample.zero.

Lemma numeric_ids_identify_rows_witness :
  prop "id" Sample.row1 = Some (VNum 1 I)
  /\ prop "id" Sample.row2 = Some (VNum 2 I)
  /\ (@getNodeId_ Sample.zero Sample.row1 = @getNodeId_ Sample.zero Sample.row2 <-> 1%Z = 2%Z).
Proof.
  split; [reflexivity |]. split; [reflexivity |].
  apply (numeric_ids_identify_rows (H := Sample.zero) Sample.row1 Sample.row2
           1 2 I I);
    (reflexivity || lia).
Defined.

Lemma number_and_string_ids_coincide_witness :
  prop "id" Cases.row_s1 = Some (VStr (pretty 1%Z))
  /\ @getNodeId_ Sample.zero Sample.row1 = @getNodeId_ Sample.zero Cases.row_s1
  /\ createDebounceKey_ edit (@getNodeId_ Sample.zero Sample.row1)
     = createDebounceKey_ edit (@getNodeId_ Sample.zero Cases.row_s1).
Proof.
  split; [vm_compute; reflexivity |].
  apply (number_and_string_ids_coincide (H := Sample.zero) Sample.row1
           Cases.row_s1 1 I edit);
    [reflexivity | vm_compute; reflexivity | lia].
Defined.


Lemma internal_factory_view_invokes_nothing_witness :
  forallb external Cases.traffic = true
  /\ snd (run Cases.traffic
            (fst (zeroChangeListenerFactoryInternal Sample.q1
                    (@mkInput Sample.zero [Sample.row1]) Sample.plural None true))) = [].
Proof.
  split; [reflexivity |].
  apply (internal_factory_view_invokes_nothing (H := Sample.zero) Sample.q1
           (@mkInput Sample.zero [Sample.row1]) Sample.plural None true Cases.traffic).
  reflexivity.
Defined.

Lemma destroyed_view_invokes_nothing_witness :
  forallb external Cases.traffic = true
  /\ snd (run Cases.traffic (Sample.view_a None)) <> []
  /\ snd (run Cases.traffic (fst (destroy (Sample.view_a None)))) = [].
Proof.
  split; [reflexivity |]. split; [vm_compute; discriminate |].
  apply (destroyed_view_invokes_nothing (H := Sample.zero) (Sample.view_a None) Cases.traffic).
  reflexivity.
Defined.


Lemma cleanup_twice_is_cleanup_once_witness :
  snd (cleanupMaterializedFactoryView "q-c1" "a" Cases.one_view) = Returned
  /\ cleanupMaterializedFactoryView "q-c1" "a"
       (fst (cleanupMaterializedFactoryView "q-c1" "a" Cases.one_view))
     = (fst (cleanupMaterializedFactoryView "q-c1" "a" Cases.one_view),
        Returned).
Proof.
  split; [vm_compute; reflexivity |].
  apply (cleanup_twice_is_cleanup_once "q-c1" "a" Cases.one_view).
  vm_compute; reflexivity.
Defined.

Lemma cleanup_of_an_unregistered_key_changes_nothing_witness :
  viewsMaterialized Cases.one_view !! "q-c1" = Some 0
  /\ cleanupMaterializedFactoryView "q-c1" "stranger" Cases.one_view
     = (Cases.one_view, Returned).
Proof.
  split; [vm_compute; reflexivity |].
  apply (cleanup_of_an_unregistered_key_changes_nothing "q-c1" "stranger"
           Cases.one_view).
  right. exists 0, (Sample.view_a None).
  repeat split; vm_compute; reflexivity.
Defined.


Lemma memoized_result_is_returned_ever_after_witness :
  let first := zeroQueryAtom Sample.q1 (Sample.listener "a" 10) true initial in
  let result := mkQueryAtom 0 "q1-c1" "a" 0 in
  let rs := [@Release Sample.zero result "q1-c1";
             @Happen Sample.zero 0 (0%Z, @EvPush Sample.zero (Add Sample.row2))]
  in
  first = (fst first, inr result)
  /\ viewsMaterialized (serve_all rs (fst first)) !! "q1-c1" = None
  /\ zeroQueryAtom Sample.q1 (Sample.listener "b" 20) false
       (serve_all rs (fst first))
     = (serve_all rs (fst first), inr result).
Proof.
  cbv zeta.
  assert (Hfirst : zeroQueryAtom Sample.q1 (Sample.listener "a" 10) true
                     initial
                   = (fst (zeroQueryAtom Sample.q1 (Sample.listener "a" 10)
                             true initial),
                      inr (mkQueryAtom 0 "q1-c1" "a" 0)))
    by (vm_compute; reflexivity).
  split; [exact Hfirst |]. split; [vm_compute; reflexivity |].
  exact (memoized_result_is_returned_ever_after initial _ Sample.q1
           (Sample.listener "a" 10) (Sample.listener "b" 20) true false _ _
           Hfirst).
Defined.

Lemma first_invocation_registers_the_caller_witness :
  snd (zeroQueryAtom Sample.q1 (Sample.listener "a" 10) true initial)
  = inr (mkQueryAtom 0 "q1-c1" "a" 0)
  /\ snd (zeroQueryAtom (Sample.query "q" None) (Sample.listener "a" 10) true
            initial)
     = inl atom_not_writable.
Proof.
  assert (Hcov : covered (@initial Sample.zero))
    by (intros k [v Hv]; vm_compute in Hv; discriminate).
  split.
  - pose proof (first_invocation_registers_the_caller initial Sample.q1
                  (Sample.listener "a" 10) true Hcov eq_refl)
      as (_ & Hreturns & _).
    apply Hreturns. now right.
  - pose proof (first_invocation_registers_the_caller initial
                  (Sample.query "q" None) (Sample.listener "a" 10) true
                  Hcov eq_refl)
      as (_ & _ & Hthrows).
    apply Hthrows; [reflexivity | discriminate].
Defined.

Lemma rerender_with_the_same_query_changes_nothing_witness :
  let mounted :=
    useZeroQueryAtom Sample.q1 (Sample.listener "a" 10) None initial in
  snd mounted = Returned
  /\ useZeroQueryAtom Sample.q1 (Sample.listener "b" 20) (snd (fst mounted))
       (fst (fst mounted))
     = (fst (fst mounted), snd (fst mounted), Returned).
Proof.
  cbv zeta. split; [reflexivity |].
  apply (rerender_with_the_same_query_changes_nothing initial
           Sample.q1 Sample.q1 (Sample.listener "a" 10)
           (Sample.listener "b" 20)); reflexivity.
Defined.

Lemma switching_back_leaves_no_live_view_witness :
  let r1 := useZeroQueryAtom Sample.q1 (Sample.listener "a" 10) None initial in
  let r2 :=
    useZeroQueryAtom Sample.q2 (Sample.listener "a" 10) (snd (fst r1))
      (fst (fst r1)) in
  let r3 :=
    useZeroQueryAtom Sample.q1 (Sample.listener "a" 10) (snd (fst r2))
      (fst (fst r2)) in
  hash Sample.q1 <> hash Sample.q2
  /\ fetch (query_input Sample.q1) = []
  /\ fetch (query_input Sample.q2) = []
  /\ snd r3 = Returned
  /\ viewsMaterialized (fst (fst r3)) !! "q1-c1" = None.
Proof.
  cbv zeta.
  assert (Hne : hash Sample.q1 <> hash Sample.q2) by (vm_compute; discriminate).
  split; [exact Hne |]. split; [reflexivity |]. split; [reflexivity |].
  pose proof (switching_back_leaves_no_live_view Sample.q1 Sample.q2
                (Sample.listener "a" 10) Hne eq_refl eq_refl eq_refl eq_refl)
    as (_ & _ & Hreturned & Hgone & _).
  split; [exact Hreturned | exact Hgone].
Defined.

End MoreExamples.
